(** * droidrun.tools.coordinate — normalized / absolute coordinate conversion

    A shallow embedding of [src/droidrun/tools/coordinate.py] together with
    the part of the Python run time its functions rest on:

    - Python [int] is unbounded and is modelled by [Z];
    - [a / b] on two ints is Python's true division: the exact quotient
      rounded to the nearest IEEE-754 binary64 value (ties to even), with
      [OverflowError] when the result does not fit and [ZeroDivisionError]
      for a zero divisor; [int(f)] truncates a float toward zero;
    - [str] is modelled by [string], read as a sequence of code points below
      256; [str.split(",")], [int(str)], [repr(str)] and the formatting of
      ints in f-strings follow the CPython behaviour on such strings,
      including the limit of 4300 digits on conversions between int and
      decimal text in either direction;
    - exceptions are values of [exn], a class with a message; every function
      that can raise returns a [result]. *)

From Stdlib Require Import ZArith Lia Bool List Ascii String DecimalString.
From stdpp Require Import base gmap strings.
Import ListNotations.

Local Open Scope Z_scope.

(** ** Exceptions and results *)

Module Py.

(** The exception classes that the module or the built-ins it calls can
    raise.  [CoordinateError] is declared in the source as
    [class CoordinateError(ValueError)]. *)
Inductive exn_class : Set :=
  | CoordinateError
  | ValueError
  | OverflowError
  | ZeroDivisionError.

Definition exn_class_eqb (c d : exn_class) : bool :=
  match c, d with
  | CoordinateError, CoordinateError
  | ValueError, ValueError
  | OverflowError, OverflowError
  | ZeroDivisionError, ZeroDivisionError => true
  | _, _ => false
  end.

(** Direct base class, [None] standing for the bases outside this model
    ([Exception] via [ArithmeticError] for the two arithmetic errors). *)
Definition base_class (c : exn_class) : option exn_class :=
  match c with
  | CoordinateError => Some ValueError
  | _ => None
  end.

(** [issubclass c d]: the hierarchy has depth one. *)
Definition issubclass (c d : exn_class) : bool :=
  exn_class_eqb c d ||
  match base_class c with
  | Some b => exn_class_eqb b d
  | None => false
  end.

Record exn : Set := Raise { exn_type : exn_class; exn_msg : string }.

(** [isinstance e d], what an [except d:] clause tests. *)
Definition isinstance (e : exn) (d : exn_class) : bool :=
  issubclass (exn_type e) d.

Inductive result (A : Type) : Type :=
  | Ok (a : A)
  | Err (e : exn).
Arguments Ok {A} a.
Arguments Err {A} e.

Definition bind {A B} (r : result A) (k : A -> result B) : result B :=
  match r with
  | Ok a => k a
  | Err e => Err e
  end.

Definition is_ok {A} (r : result A) : bool :=
  match r with Ok _ => true | Err _ => false end.

Definition raise {A} (c : exn_class) (msg : string) : result A :=
  Err (Raise c msg).

End Py.
Export Py.

(** [result] is a monad; stdpp's [x ← r; k] sequences two calls and
    propagates the first exception. *)
#[export] Instance result_ret : MRet result := @Ok.
#[export] Instance result_bind : MBind result :=
  fun A B k r => Py.bind r k.

(** ** Integer true division and float truncation *)

Module PyFloat.

(** A finite binary64 value, written [mant * 2 ^ expo].  Only finite values
    arise from dividing two ints. *)
Record float : Set := Float { mant : Z; expo : Z }.

(** [quotient_exponent n d], for positive [n] and [d], is the [k] with
    [2^k <= n/d < 2^(k+1)]. *)
Definition quotient_exponent (n d : Z) : Z :=
  let k0 := Z.log2 n - Z.log2 d in
  if d * 2 ^ Z.max 0 k0 <=? n * 2 ^ Z.max 0 (- k0) then k0 else k0 - 1.

(** Round half to even on the quotient [num / den]. *)
Definition round_half_even (num den : Z) : Z :=
  let q := num / den in
  let r := num mod den in
  if (den <? 2 * r) || ((den =? 2 * r) && Z.odd q) then q + 1 else q.

(** [int.__truediv__]: the correctly rounded quotient of two ints.  The
    magnitude is scaled so that the integer part of [num / den] carries the
    53 significant bits (fewer in the subnormal range, whose least exponent
    is -1074); a result of magnitude [2^1024] or more raises. *)
Definition truediv (a b : Z) : result float :=
  if b =? 0 then raise ZeroDivisionError "division by zero"
  else if a =? 0 then Ok (Float 0 0)
  else
    let n := Z.abs a in
    let d := Z.abs b in
    let e := Z.max (quotient_exponent n d - 52) (-1074) in
    let m := round_half_even (n * 2 ^ Z.max 0 (- e)) (d * 2 ^ Z.max 0 e) in
    if (0 <=? e) && (2 ^ 1024 <=? m * 2 ^ e)
    then raise OverflowError "integer division result too large for a float"
    else Ok (Float (Z.sgn a * Z.sgn b * m) e).

(** [int(f)] for a finite float: truncation toward zero. *)
Definition int_of_float (f : float) : Z :=
  if 0 <=? expo f then mant f * 2 ^ expo f
  else Z.quot (mant f) (2 ^ (- expo f)).

(** The source idiom [int(a / b)]. *)
Definition int_truediv (a b : Z) : result Z :=
  f ← truediv a b; Ok (int_of_float f).

End PyFloat.
Export PyFloat.

(** ** Strings: formatting, splitting and parsing of ints *)

Module PyStr.

Definition ord (c : ascii) : Z := Z.of_N (N_of_ascii c).

(** The decimal text of an int: a minus sign for a negative number, then
    the digits without leading zeros. *)
Definition decimal (n : Z) : string := NilZero.string_of_int (Z.to_int n).

(** [sys.get_int_max_str_digits()], at its default. *)
Definition int_max_str_digits : nat := 4300.

(** The least magnitude with more digits than the limit allows. *)
Definition str_limit : Z :=
  Eval vm_compute in 10 ^ Z.of_nat int_max_str_digits.

Definition str_limit_exceeded {A} : result A :=
  raise ValueError
    ("Exceeds the limit (" +:+ decimal (Z.of_nat int_max_str_digits)
     +:+ " digits) for integer string conversion; "
     +:+ "use sys.set_int_max_str_digits() to increase the limit").

(** [str(n)], also what [f"{n}"] inserts for an int: the decimal text,
    unless the number has more digits than the limit allows, in which case
    the conversion raises ValueError. *)
Definition str (n : Z) : result string :=
  if str_limit <=? Z.abs n then str_limit_exceeded else Ok (decimal n).

(** [s.split(sep)] for a one-character separator: never empty, and as many
    pieces as there are separators plus one. *)
Fixpoint split (sep : ascii) (s : string) : list string :=
  match s with
  | EmptyString => [EmptyString]
  | String c r =>
      if Ascii.eqb c sep then EmptyString :: split sep r
      else match split sep r with
           | h :: t => String c h :: t
           | [] => [String c EmptyString]
           end
  end.

(** [sep.join(parts)]. *)
Definition join (sep : string) (parts : list string) : string :=
  String.concat sep parts.

(** White space as [int(str)] sees it: the ASCII set of the C locale, and,
    among the code points from 128 to 255, the two Unicode spaces NEL and
    NBSP, which CPython maps to a blank before parsing. *)
Definition isspace (c : ascii) : bool :=
  let n := ord c in
  ((9 <=? n) && (n <=? 13)) || (n =? 32) || (n =? 133) || (n =? 160).

Definition isdigit (c : ascii) : bool :=
  let n := ord c in (48 <=? n) && (n <=? 57).

Definition digit_value (c : ascii) : Z := ord c - 48.

Fixpoint lstrip (s : string) : string :=
  match s with
  | EmptyString => EmptyString
  | String c r => if isspace c then lstrip r else s
  end.

(** The digit scan of [int(str)] in base 10: digits, with single
    underscores allowed between two digits.  [prev_us] tells that the
    previous character was an underscore; the result is the value read, the
    number of digits and the unread rest, or [None] for a doubled or
    trailing underscore. *)
Fixpoint scan_digits (prev_us : bool) (acc : Z) (ndigits : nat) (s : string)
  : option (Z * nat * string) :=
  match s with
  | EmptyString => if prev_us then None else Some (acc, ndigits, s)
  | String c r =>
      if isdigit c then
        scan_digits false (10 * acc + digit_value c) (Datatypes.S ndigits) r
      else if Ascii.eqb c "_" then
        if prev_us then None else scan_digits true acc ndigits r
      else if prev_us then None else Some (acc, ndigits, s)
  end.

Definition squote : ascii := ascii_of_N 39.
Definition dquote : ascii := ascii_of_N 34.
Definition backslash : ascii := ascii_of_N 92.

Fixpoint contains (c : ascii) (s : string) : bool :=
  match s with
  | EmptyString => false
  | String a r => Ascii.eqb a c || contains c r
  end.

(** [str.isprintable] on one code point below 256: the ASCII graphic
    characters and the blank, and the Latin-1 characters from 161 on except
    the soft hyphen. *)
Definition isprintable (c : ascii) : bool :=
  let n := ord c in
  ((32 <=? n) && (n <=? 126)) || ((161 <=? n) && negb (n =? 173)).

Definition hex_digit (n : Z) : ascii :=
  ascii_of_N (Z.to_N (if n <? 10 then 48 + n else 87 + n)).

(** One character of [repr(s)], inside the quotes. *)
Definition repr_char (quote c : ascii) : string :=
  let n := ord c in
  if Ascii.eqb c quote || Ascii.eqb c backslash then
    String backslash (String c EmptyString)
  else if n =? 9 then String backslash "t"
  else if n =? 10 then String backslash "n"
  else if n =? 13 then String backslash "r"
  else if isprintable c then String c EmptyString
  else String backslash
         (String "x" (String (hex_digit (n / 16))
                        (String (hex_digit (n mod 16)) EmptyString))).

Fixpoint repr_body (quote : ascii) (s : string) : string :=
  match s with
  | EmptyString => EmptyString
  | String c r => repr_char quote c +:+ repr_body quote r
  end.

(** [repr(s)] for a [str]: single quotes, unless the text holds a single
    quote and no double quote. *)
Definition repr (s : string) : string :=
  let quote :=
    if contains squote s && negb (contains dquote s) then dquote
    else squote in
  String quote (repr_body quote s +:+ String quote EmptyString).

(** The message is formatted with [%.200R]: the repr of the argument, cut
    after 200 characters. *)
Definition invalid_literal {A} (s : string) : result A :=
  raise ValueError
    ("invalid literal for int() with base 10: "
     +:+ String.substring 0 200 (repr s)).

Definition digits_limit {A} (ndigits : nat) : result A :=
  raise ValueError
    ("Exceeds the limit (" +:+ decimal (Z.of_nat int_max_str_digits)
     +:+ " digits) for integer string conversion: value has "
     +:+ decimal (Z.of_nat ndigits)
     +:+ " digits; use sys.set_int_max_str_digits() to increase the limit").

(** An optional sign in front of the digits. *)
Definition split_sign (s : string) : bool * string :=
  match s with
  | String c r =>
      if Ascii.eqb c "+" then (false, r)
      else if Ascii.eqb c "-" then (true, r)
      else (false, s)
  | EmptyString => (false, s)
  end.

Definition starts_with_underscore (s : string) : bool :=
  match s with
  | String c _ => Ascii.eqb c "_"
  | EmptyString => false
  end.

(** [int(s)] for a [str]: optional white space, an optional sign, the
    digits, optional white space, and nothing else. *)
Definition int (s : string) : result Z :=
  let '(negative, body) := split_sign (lstrip s) in
  if starts_with_underscore body then invalid_literal s
  else
    match scan_digits false 0 0 body with
    | None => invalid_literal s
    | Some (v, ndigits, rest) =>
        match ndigits with
        | O => invalid_literal s
        | _ =>
            if (int_max_str_digits <? ndigits)%nat then digits_limit ndigits
            else match lstrip rest with
                 | EmptyString => Ok (if negative then - v else v)
                 | _ => invalid_literal s
                 end
        end
    end.

(** [a, b, c, d = it] for an iterator [it] whose items are computed on
    demand, each either a value or the exception its computation raises
    (here [map(int, tokens)]).  The items are pulled in order; after the
    fourth, a fifth is requested to see that the iterator is exhausted. *)
Definition unpack4 {A} (it : list (result A)) : result (A * A * A * A) :=
  let not_enough (got : Z) : result (A * A * A * A) :=
    raise ValueError
      ("not enough values to unpack (expected 4, got " +:+ decimal got
       +:+ ")") in
  match it with
  | [] => not_enough 0
  | r1 :: it =>
    a ← r1;
    match it with
    | [] => not_enough 1
    | r2 :: it =>
      b ← r2;
      match it with
      | [] => not_enough 2
      | r3 :: it =>
        c ← r3;
        match it with
        | [] => not_enough 3
        | r4 :: it =>
          d ← r4;
          match it with
          | [] => Ok (a, b, c, d)
          | r5 :: _ =>
            _ ← r5;
            raise ValueError "too many values to unpack (expected 4)"
          end
        end
      end
    end
  end.

End PyStr.

Arguments PyStr.str : simpl never.
Arguments PyStr.str_limit : simpl never.

(** ** The module [droidrun.tools.coordinate] *)

Module Coordinate.

(** Normalized coordinate range constant. *)
Definition NORMALIZED_RANGE : Z := 1000.

(** The dataclass [ScreenSize]: two int fields. *)
Record ScreenSize : Set := mkScreenSize { width : Z; height : Z }.

(** [ScreenSize.__post_init__].  The message of each [raise] is an
    f-string, evaluated before the exception is built: formatting an int
    of more than 4300 digits raises ValueError instead. *)
Definition __post_init__ (self : ScreenSize) : result unit :=
  if width self <=? 0 then
    got ← PyStr.str (width self);
    raise CoordinateError ("Screen width must be positive, got " +:+ got)
  else if height self <=? 0 then
    got ← PyStr.str (height self);
    raise CoordinateError ("Screen height must be positive, got " +:+ got)
  else Ok tt.

(** The call [ScreenSize(width=w, height=h)]: the generated [__init__]
    stores the fields and runs [__post_init__]; the caller receives the
    instance only when that returns. *)
Definition ScreenSize_new (w h : Z) : result ScreenSize :=
  let self := mkScreenSize w h in
  _ ← __post_init__ self; Ok self.

(** [ScreenSize.from_device_context]; the device context is a dict whose
    ["screen_bounds"] entry, when present, is a dict of ints. *)
Definition from_device_context (device_context : gmap string (gmap string Z))
  : result ScreenSize :=
  let screen_bounds := default ∅ (device_context !! "screen_bounds") in
  let width := default 1080 (screen_bounds !! "width") in
  let height := default 2400 (screen_bounds !! "height") in
  if (width <=? 0) || (height <=? 0) then
    w ← PyStr.str width;
    h ← PyStr.str height;
    raise CoordinateError
      ("Invalid screen dimensions: " +:+ w +:+ "x" +:+ h +:+ ". "
       +:+ "Both width and height must be positive.")
  else ScreenSize_new width height.

(** The conditional f-string of the two validators: the label followed by
    a colon and a blank when the label is not empty, nothing otherwise. *)
Definition ctx_prefix (context : string) : string :=
  match context with
  | EmptyString => EmptyString
  | _ => context +:+ ": "
  end.

Definition validate_normalized_coords (x y : Z) (context : string)
  : result unit :=
  let ctx_prefix := ctx_prefix context in
  if negb ((0 <=? x) && (x <=? NORMALIZED_RANGE)) then
    sx ← PyStr.str x;
    range ← PyStr.str NORMALIZED_RANGE;
    raise CoordinateError
      (ctx_prefix +:+ "X coordinate (" +:+ sx
       +:+ ") out of valid range [0, " +:+ range +:+ "]")
  else if negb ((0 <=? y) && (y <=? NORMALIZED_RANGE)) then
    sy ← PyStr.str y;
    range ← PyStr.str NORMALIZED_RANGE;
    raise CoordinateError
      (ctx_prefix +:+ "Y coordinate (" +:+ sy
       +:+ ") out of valid range [0, " +:+ range +:+ "]")
  else Ok tt.

Definition normalized_to_absolute (norm_x norm_y : Z) (screen_size : ScreenSize)
  : result (Z * Z) :=
  _ ← validate_normalized_coords norm_x norm_y "normalized_to_absolute";
  abs_x ← int_truediv (norm_x * width screen_size) NORMALIZED_RANGE;
  abs_y ← int_truediv (norm_y * height screen_size) NORMALIZED_RANGE;
  Ok (abs_x, abs_y).

Definition absolute_to_normalized (abs_x abs_y : Z) (screen_size : ScreenSize)
  : result (Z * Z) :=
  norm_x ← int_truediv (abs_x * NORMALIZED_RANGE) (width screen_size);
  norm_y ← int_truediv (abs_y * NORMALIZED_RANGE) (height screen_size);
  (* Clamp to valid range *)
  let norm_x := Z.max 0 (Z.min NORMALIZED_RANGE norm_x) in
  let norm_y := Z.max 0 (Z.min NORMALIZED_RANGE norm_y) in
  Ok (norm_x, norm_y).

Definition validate_normalized_area (x1 y1 x2 y2 : Z) (context : string)
  : result unit :=
  let ctx_prefix := ctx_prefix context in
  (* Validate individual coordinates are in range *)
  _ ← validate_normalized_coords x1 y1 (ctx_prefix +:+ "top-left");
  _ ← validate_normalized_coords x2 y2 (ctx_prefix +:+ "bottom-right");
  (* Validate area bounds *)
  if x1 >? x2 then
    s1 ← PyStr.str x1;
    s2 ← PyStr.str x2;
    raise CoordinateError
      (ctx_prefix +:+ "Invalid area: x1 (" +:+ s1 +:+ ") > x2 ("
       +:+ s2 +:+ "). " +:+ "Top-left X must be <= bottom-right X")
  else if y1 >? y2 then
    s1 ← PyStr.str y1;
    s2 ← PyStr.str y2;
    raise CoordinateError
      (ctx_prefix +:+ "Invalid area: y1 (" +:+ s1 +:+ ") > y2 ("
       +:+ s2 +:+ "). " +:+ "Top-left Y must be <= bottom-right Y")
  else Ok tt.

Definition normalized_area_to_center (x1 y1 x2 y2 : Z) (screen_size : ScreenSize)
  : result (Z * Z) :=
  _ ← validate_normalized_area x1 y1 x2 y2 "normalized_area_to_center";
  (* Calculate normalized center point *)
  let center_norm_x := (x1 + x2) / 2 in
  let center_norm_y := (y1 + y2) / 2 in
  normalized_to_absolute center_norm_x center_norm_y screen_size.

Definition bounds_to_normalized (bounds_str : string) (screen_size : ScreenSize)
  : result (Z * Z * Z * Z) :=
  '(b_left, b_top, b_right, b_bottom) ←
    PyStr.unpack4 (map PyStr.int (PyStr.split "," bounds_str));
  '(norm_x1, norm_y1) ← absolute_to_normalized b_left b_top screen_size;
  '(norm_x2, norm_y2) ← absolute_to_normalized b_right b_bottom screen_size;
  Ok (norm_x1, norm_y1, norm_x2, norm_y2).

End Coordinate.
Export Coordinate.

(** ** Vocabulary for bounds strings *)

Module Tokens.

Fixpoint string_forallb (f : ascii -> bool) (s : string) : bool :=
  match s with
  | EmptyString => true
  | String c r => f c && string_forallb f r
  end.

Definition all_space (s : string) : bool := string_forallb PyStr.isspace s.
Definition all_digits (s : string) : bool := string_forallb PyStr.isdigit s.
Definition no_comma (s : string) : bool :=
  string_forallb (fun c => negb (Ascii.eqb c ",")) s.

(** The number written by a string of decimal digits, most significant
    first, continuing from [acc]. *)
Fixpoint digits_value (acc : Z) (d : string) : Z :=
  match d with
  | EmptyString => acc
  | String c r => digits_value (10 * acc + PyStr.digit_value c) r
  end.

(** A base-10 integer token: an optional sign and at least one digit. *)
Definition int_token (t : string) : bool :=
  let '(_, d) := PyStr.split_sign t in
  negb (String.length d =? 0)%nat && all_digits d.

Definition token_digits (t : string) : nat :=
  String.length (snd (PyStr.split_sign t)).

Definition token_value (t : string) : Z :=
  let '(negative, d) := PyStr.split_sign t in
  if negative then - digits_value 0 d else digits_value 0 d.

(** [padding t p]: [p] is the token [t] with white space added on either
    side. *)
Inductive padding (t : string) : string -> Prop :=
  | padding_intro (l r : string) :
      all_space l = true -> all_space r = true ->
      padding t (l +:+ t +:+ r).

End Tokens.
Export Tokens.

(** * Properties *)

(** ** Formatting of ints *)

Section Formatting.

Lemma str_ok n :
  Z.abs n < PyStr.str_limit -> PyStr.str n = Ok (PyStr.decimal n).
Proof.
  intros Hn. unfold PyStr.str.
  destruct (Z.leb_spec PyStr.str_limit (Z.abs n)); [lia|reflexivity].
Qed.

Lemma str_raises n :
  PyStr.str_limit <= Z.abs n -> PyStr.str n = PyStr.str_limit_exceeded.
Proof.
  intros Hn. unfold PyStr.str.
  destruct (Z.leb_spec PyStr.str_limit (Z.abs n)); [reflexivity|lia].
Qed.

Lemma str_error n e : PyStr.str n = Err e -> exn_type e = ValueError.
Proof.
  unfold PyStr.str, PyStr.str_limit_exceeded, raise.
  destruct (_ <=? _); [now intros [= <-]|discriminate].
Qed.

Lemma str_limit_above_range : NORMALIZED_RANGE < PyStr.str_limit.
Proof. reflexivity. Qed.

Lemma str_limit_above_defaults : 2400 < PyStr.str_limit.
Proof. reflexivity. Qed.

(** Every value the validators accept, and the range bound itself, is
    formatted without an error. *)
Lemma str_normalized x :
  0 <= x <= NORMALIZED_RANGE -> PyStr.str x = Ok (PyStr.decimal x).
Proof.
  intros Hx. apply str_ok. pose proof str_limit_above_range. lia.
Qed.

Lemma str_NORMALIZED_RANGE :
  PyStr.str NORMALIZED_RANGE = Ok (PyStr.decimal NORMALIZED_RANGE).
Proof. reflexivity. Qed.

End Formatting.

(** Resolve one [str] call from a bound on its argument in the context. *)
Ltac format_int :=
  match goal with
  | H : Z.abs ?v < PyStr.str_limit |- context [PyStr.str ?v] =>
      rewrite (str_ok v H)
  | H : PyStr.str_limit <= Z.abs ?v |- context [PyStr.str ?v] =>
      rewrite (str_raises v H)
  end.

(** ** Sanity checks on the run-time model *)

Example truediv_half : int_truediv 500 1000 = Ok 0.
Proof. reflexivity. Qed.

Example truediv_tie_even :
  int_truediv (1000 * (2 ^ 53 + 3)) 1000 = Ok (2 ^ 53 + 4).
Proof. vm_compute. reflexivity. Qed.

Example truediv_neg : int_truediv (-7) 2 = Ok (-3).
Proof. reflexivity. Qed.

Example truediv_zero : int_truediv 1 0 = raise ZeroDivisionError "division by zero".
Proof. reflexivity. Qed.

Example int_signed_padded : PyStr.int " -12 " = Ok (-12).
Proof. reflexivity. Qed.

Example int_underscore : PyStr.int "1_000" = Ok 1000.
Proof. reflexivity. Qed.

Example int_sign_then_space :
  PyStr.int "- 5" =
    raise ValueError "invalid literal for int() with base 10: '- 5'".
Proof. reflexivity. Qed.

Example split_keeps_empty_pieces :
  PyStr.split "," "a,,b," = ["a"; EmptyString; "b"; EmptyString]%string.
Proof. reflexivity. Qed.

Example str_at_the_limit :
  PyStr.str (10 ^ 4300 - 1) = Ok (PyStr.decimal (10 ^ 4300 - 1)) /\
  String.length (PyStr.decimal (10 ^ 4300 - 1)) = 4300%nat /\
  PyStr.str (10 ^ 4300) =
    raise ValueError
      "Exceeds the limit (4300 digits) for integer string conversion; use sys.set_int_max_str_digits() to increase the limit" /\
  PyStr.str (- 10 ^ 4300) = PyStr.str_limit_exceeded.
Proof. vm_compute. repeat split. Qed.

Example repr_picks_quotes :
  PyStr.repr "it's" = String PyStr.dquote ("it's" +:+ String PyStr.dquote EmptyString) /\
  PyStr.repr (String (ascii_of_N 9) ".") =
    String "'" (String PyStr.backslash "t.'").
Proof. vm_compute. split; reflexivity. Qed.

(** Formatting comes before raising: a coordinate of 4301 digits is
    refused with the ValueError of the formatting. *)
Example validate_normalized_coords_huge :
  validate_normalized_coords (10 ^ 4300) 0 EmptyString
    = PyStr.str_limit_exceeded /\
  ScreenSize_new (- 10 ^ 4300) 100 = PyStr.str_limit_exceeded.
Proof. vm_compute. split; reflexivity. Qed.

(** The concrete cases of the specification. *)

Example normalized_to_absolute_centre :
  normalized_to_absolute 500 500 (mkScreenSize 1080 2400) = Ok (540, 1200).
Proof. reflexivity. Qed.

Example absolute_to_normalized_corner :
  absolute_to_normalized 1080 2400 (mkScreenSize 1080 2400) = Ok (1000, 1000).
Proof. reflexivity. Qed.

Example bounds_to_normalized_full_screen :
  bounds_to_normalized "0,0,1080,2400" (mkScreenSize 1080 2400)
    = Ok (0, 0, 1000, 1000).
Proof. reflexivity. Qed.

Example validate_normalized_coords_1001 :
  validate_normalized_coords 1001 0 EmptyString =
    raise CoordinateError "X coordinate (1001) out of valid range [0, 1000]".
Proof. reflexivity. Qed.

Example validate_normalized_coords_1000 :
  validate_normalized_coords 1000 1000 EmptyString = Ok tt.
Proof. reflexivity. Qed.

(** ** True division: exactness below [2^53] and absence of overflow *)

Section TrueDivision.

Lemma round_half_even_cases num den :
  round_half_even num den = num / den \/
  (round_half_even num den = num / den + 1 /\ den <= 2 * (num mod den)).
Proof.
  unfold round_half_even.
  destruct (den <? 2 * (num mod den)) eqn:Hlt; simpl.
  - right. apply Z.ltb_lt in Hlt. lia.
  - destruct (den =? 2 * (num mod den)) eqn:Heq; simpl; [|now left].
    apply Z.eqb_eq in Heq.
    destruct (Z.odd (num / den)); [right; lia | now left].
Qed.

(** Rounding [n * P / d] to an integer and then dropping the [P] scale
    gives the floor of [n / d], as long as [d < 2 * P]: the rounded value
    cannot reach the next multiple of [P]. *)
Lemma round_then_truncate n d P :
  0 <= n -> 0 < d -> 0 < P -> d < 2 * P ->
  round_half_even (n * P) d / P = n / d.
Proof.
  intros Hn Hd HP HdP.
  pose proof (Z.div_mod n d ltac:(lia)) as Hnd.
  pose proof (Z.mod_pos_bound n d Hd) as HR.
  pose proof (Z.div_mod (n * P) d ltac:(lia)) as HnP.
  pose proof (Z.mod_pos_bound (n * P) d Hd) as Hr.
  pose proof (Z.div_pos n d Hn Hd) as HQ.
  pose proof (round_half_even_cases (n * P) d) as Hm.
  set (m := round_half_even (n * P) d) in *.
  set (Q := n / d) in *. set (R := n mod d) in *.
  set (q := n * P / d) in *. set (r := (n * P) mod d) in *.
  assert (Hlo : Q * P <= q) by nia.
  assert (Hhi : q < (Q + 1) * P) by nia.
  symmetry.
  destruct Hm as [Hm | [Hm Hup]].
  - apply Z.div_unique with (r := m - Q * P); lia.
  - assert (q + 1 < (Q + 1) * P) by nia.
    apply Z.div_unique with (r := m - Q * P); lia.
Qed.

Lemma quotient_exponent_le n d :
  quotient_exponent n d <= Z.log2 n - Z.log2 d.
Proof. unfold quotient_exponent. destruct (_ <=? _); lia. Qed.

Lemma round_half_even_nonneg num den :
  0 <= num -> 0 < den -> 0 <= round_half_even num den.
Proof.
  intros Hn Hd. pose proof (Z.div_pos num den Hn Hd).
  destruct (round_half_even_cases num den) as [-> | [-> _]]; lia.
Qed.

(** The rounded quotient is within half a unit of the exact one, and even
    on a tie. *)
Lemma round_half_even_nearest num den :
  0 < den -> 2 * Z.abs (round_half_even num den * den - num) <= den.
Proof.
  intros Hd. unfold round_half_even.
  pose proof (Z.div_mod num den ltac:(lia)) as Hdm.
  pose proof (Z.mod_pos_bound num den Hd) as Hr.
  destruct (Z.ltb_spec den (2 * (num mod den))); simpl; [nia|].
  destruct (Z.eqb_spec den (2 * (num mod den))); simpl; [|nia].
  destruct (Z.odd (num / den)); nia.
Qed.

Lemma round_half_even_tie num den :
  0 < den -> den = 2 * (num mod den) ->
  Z.even (round_half_even num den) = true.
Proof.
  intros Hd Htie. unfold round_half_even.
  destruct (Z.ltb_spec den (2 * (num mod den))); [lia|].
  rewrite (proj2 (Z.eqb_eq _ _) Htie). simpl.
  destruct (Z.odd (num / den)) eqn:Hodd.
  - rewrite Z.even_add, <- Z.negb_odd, Hodd. reflexivity.
  - now rewrite <- Z.negb_odd, Hodd.
Qed.

(** [2^k <= n/d < 2^(k+1)], cross-multiplied. *)
Lemma quotient_exponent_spec n d :
  0 < n -> 0 < d ->
  let k := quotient_exponent n d in
  d * 2 ^ Z.max 0 k <= n * 2 ^ Z.max 0 (- k) /\
  n * 2 ^ Z.max 0 (- (k + 1)) < d * 2 ^ Z.max 0 (k + 1).
Proof.
  intros Hn Hd. unfold quotient_exponent.
  destruct (Z.log2_spec n Hn) as [Hnlo Hnhi].
  destruct (Z.log2_spec d Hd) as [Hdlo Hdhi].
  pose proof (Z.log2_nonneg n) as Hln. pose proof (Z.log2_nonneg d) as Hld.
  set (ln := Z.log2 n) in *. set (ld := Z.log2 d) in *.
  set (k0 := ln - ld).
  rewrite Z.pow_succ_r in Hnhi, Hdhi by lia.
  assert (Hpn : 0 < 2 ^ ln) by (apply Z.pow_pos_nonneg; lia).
  assert (Hpd : 0 < 2 ^ ld) by (apply Z.pow_pos_nonneg; lia).
  destruct (Z.leb_spec (d * 2 ^ Z.max 0 k0) (n * 2 ^ Z.max 0 (- k0))) as [Ht|Ht];
    cbv zeta.
  - split; [exact Ht|].
    destruct (Z.le_gt_cases 0 (k0 + 1)) as [Hk|Hk].
    + replace (Z.max 0 (- (k0 + 1))) with 0 by lia.
      replace (Z.max 0 (k0 + 1)) with (k0 + 1) by lia.
      assert (2 ^ ld * 2 ^ (k0 + 1) = 2 * 2 ^ ln).
      { rewrite <- Z.pow_add_r by lia. replace (ld + (k0 + 1)) with (Z.succ ln) by lia.
        rewrite Z.pow_succ_r by lia. reflexivity. }
      assert (0 < 2 ^ (k0 + 1)) by (apply Z.pow_pos_nonneg; lia).
      nia.
    + replace (Z.max 0 (- (k0 + 1))) with (- (k0 + 1)) by lia.
      replace (Z.max 0 (k0 + 1)) with 0 by lia.
      assert (2 * 2 ^ ln * 2 ^ (- (k0 + 1)) = 2 ^ ld).
      { rewrite <- Z.pow_succ_r, <- Z.pow_add_r by lia. f_equal. lia. }
      assert (0 < 2 ^ (- (k0 + 1))) by (apply Z.pow_pos_nonneg; lia).
      nia.
  - split; [|].
    + destruct (Z.le_gt_cases 0 (k0 - 1)) as [Hk|Hk].
      * replace (Z.max 0 (- (k0 - 1))) with 0 by lia.
        replace (Z.max 0 (k0 - 1)) with (k0 - 1) by lia.
        assert (2 * 2 ^ ld * 2 ^ (k0 - 1) = 2 ^ ln).
        { rewrite <- Z.pow_succ_r, <- Z.pow_add_r by lia. f_equal. lia. }
        assert (0 < 2 ^ (k0 - 1)) by (apply Z.pow_pos_nonneg; lia).
        nia.
      * replace (Z.max 0 (- (k0 - 1))) with (- (k0 - 1)) by lia.
        replace (Z.max 0 (k0 - 1)) with 0 by lia.
        assert (2 ^ ln * 2 ^ (- (k0 - 1)) = 2 * 2 ^ ld).
        { rewrite <- Z.pow_add_r, <- Z.pow_succ_r by lia. f_equal. lia. }
        assert (0 < 2 ^ (- (k0 - 1))) by (apply Z.pow_pos_nonneg; lia).
        nia.
    + replace (k0 - 1 + 1) with k0 by lia. exact Ht.
Qed.

(** Comparisons of [n / d] with a power of two stay valid when the
    exponent moves. *)
Lemma scaled_lt_mono n d j j' :
  0 < n -> 0 < d -> j <= j' ->
  n * 2 ^ Z.max 0 (- j) < d * 2 ^ Z.max 0 j ->
  n * 2 ^ Z.max 0 (- j') < d * 2 ^ Z.max 0 j'.
Proof.
  intros Hn Hd Hj H.
  assert (Hmono : forall u v, 0 <= u <= v -> 0 < 2 ^ u <= 2 ^ v).
  { intros u v Huv. split; [apply Z.pow_pos_nonneg; lia|].
    apply Z.pow_le_mono_r; lia. }
  pose proof (Hmono (Z.max 0 (- j')) (Z.max 0 (- j)) ltac:(lia)).
  pose proof (Hmono (Z.max 0 j) (Z.max 0 j') ltac:(lia)).
  nia.
Qed.

Lemma scaled_lt_shift n d e :
  0 < n -> 0 < d ->
  n * 2 ^ Z.max 0 (- (e + 53)) < d * 2 ^ Z.max 0 (e + 53) ->
  n * 2 ^ Z.max 0 (- e) < 2 ^ 53 * (d * 2 ^ Z.max 0 e).
Proof.
  intros Hn Hd H.
  assert (Hsplit : 2 ^ Z.max 0 (- e) * 2 ^ Z.max 0 (e + 53) =
                   2 ^ 53 * (2 ^ Z.max 0 e * 2 ^ Z.max 0 (- (e + 53)))).
  { rewrite <- !Z.pow_add_r by lia. f_equal. lia. }
  assert (0 < 2 ^ Z.max 0 (- e)) by (apply Z.pow_pos_nonneg; lia).
  assert (0 < 2 ^ Z.max 0 e) by (apply Z.pow_pos_nonneg; lia).
  assert (0 < 2 ^ Z.max 0 (e + 53)) by (apply Z.pow_pos_nonneg; lia).
  assert (0 < 2 ^ Z.max 0 (- (e + 53))) by (apply Z.pow_pos_nonneg; lia).
  assert (0 < 2 ^ 53) by reflexivity.
  set (A := 2 ^ Z.max 0 (- e)) in *. set (B := 2 ^ Z.max 0 e) in *.
  set (C := 2 ^ Z.max 0 (e + 53)) in *. set (D := 2 ^ Z.max 0 (- (e + 53))) in *.
  set (P := 2 ^ 53) in *.
  (* n*D < d*C ; A*C = P*B*D ; want n*A < P*d*B *)
  assert (n * D * A < d * C * A) by nia.
  assert (n * A * D < P * (d * B) * D) by nia.
  nia.
Qed.

Lemma scaled_le_shift n d e :
  0 < n -> 0 < d ->
  d * 2 ^ Z.max 0 (e + 52) <= n * 2 ^ Z.max 0 (- (e + 52)) ->
  2 ^ 52 * (d * 2 ^ Z.max 0 e) <= n * 2 ^ Z.max 0 (- e).
Proof.
  intros Hn Hd H.
  assert (Hsplit : 2 ^ Z.max 0 (- e) * 2 ^ Z.max 0 (e + 52) =
                   2 ^ 52 * (2 ^ Z.max 0 e * 2 ^ Z.max 0 (- (e + 52)))).
  { rewrite <- !Z.pow_add_r by lia. f_equal. lia. }
  assert (0 < 2 ^ Z.max 0 (- e)) by (apply Z.pow_pos_nonneg; lia).
  assert (0 < 2 ^ Z.max 0 e) by (apply Z.pow_pos_nonneg; lia).
  assert (0 < 2 ^ Z.max 0 (e + 52)) by (apply Z.pow_pos_nonneg; lia).
  assert (0 < 2 ^ Z.max 0 (- (e + 52))) by (apply Z.pow_pos_nonneg; lia).
  assert (0 < 2 ^ 52) by reflexivity.
  set (A := 2 ^ Z.max 0 (- e)) in *. set (B := 2 ^ Z.max 0 e) in *.
  set (C := 2 ^ Z.max 0 (e + 52)) in *. set (D := 2 ^ Z.max 0 (- (e + 52))) in *.
  set (P := 2 ^ 52) in *.
  assert (d * C * A <= n * D * A) by nia.
  assert (P * (d * B) * D <= n * A * D) by nia.
  nia.
Qed.

Lemma abs_signed a b m :
  a <> 0 -> b <> 0 -> 0 <= m -> Z.abs (Z.sgn a * Z.sgn b * m) = m.
Proof.
  intros Ha Hb Hm.
  destruct a; [contradiction| |]; destruct b; try contradiction;
    cbn [Z.sgn]; lia.
Qed.

(** The float returned by [truediv] is the binary64 value nearest to the
    exact quotient. *)
Lemma truediv_correctly_rounded a b f :
  a <> 0 -> truediv a b = Ok f ->
  let e := expo f in
  let m := Z.abs (mant f) in
  let N := Z.abs a * 2 ^ Z.max 0 (- e) in
  let D := Z.abs b * 2 ^ Z.max 0 e in
  mant f = Z.sgn a * Z.sgn b * m /\
  -1074 <= e /\
  2 * Z.abs (m * D - N) <= D /\
  (D = 2 * (N mod D) -> Z.even m = true) /\
  m <= 2 ^ 53 /\
  (e = -1074 \/ 2 ^ 52 <= m) /\
  (0 <= e -> m * 2 ^ e < 2 ^ 1024).
Proof.
  intros Ha. unfold truediv.
  destruct (Z.eqb_spec b 0) as [|Hb]; [discriminate|].
  destruct (Z.eqb_spec a 0) as [|_]; [contradiction|].
  set (n := Z.abs a). set (d := Z.abs b).
  assert (Hn : 0 < n) by lia. assert (Hd : 0 < d) by lia.
  destruct (quotient_exponent_spec n d Hn Hd) as [Hlo Hhi].
  set (k := quotient_exponent n d) in *.
  set (e := Z.max (k - 52) (-1074)).
  set (N := n * 2 ^ Z.max 0 (- e)). set (D := d * 2 ^ Z.max 0 e).
  assert (HD : 0 < D)
    by (apply Z.mul_pos_pos; [exact Hd | apply Z.pow_pos_nonneg; lia]).
  assert (HN : 0 < N)
    by (apply Z.mul_pos_pos; [exact Hn | apply Z.pow_pos_nonneg; lia]).
  pose proof (round_half_even_nearest N D HD) as Hnear.
  pose proof (round_half_even_tie N D HD) as Htie.
  pose proof (round_half_even_nonneg N D ltac:(lia) HD) as Hm0.
  pose proof (round_half_even_cases N D) as Hcases.
  assert (Hup : N < 2 ^ 53 * D).
  { apply scaled_lt_shift; try assumption.
    apply (scaled_lt_mono n d (k + 1)); try assumption. lia. }
  assert (Hm53 : round_half_even N D <= 2 ^ 53).
  { assert (N / D < 2 ^ 53) by (apply Z.div_lt_upper_bound; lia).
    destruct Hcases as [-> | [-> _]]; lia. }
  assert (Hm52 : e = -1074 \/ 2 ^ 52 <= round_half_even N D).
  { destruct (Z.eq_dec e (-1074)) as [|He]; [now left|right].
    assert (e = k - 52) by lia.
    assert (2 ^ 52 * D <= N).
    { apply scaled_le_shift; try assumption.
      replace (e + 52) with k by lia. exact Hlo. }
    assert (2 ^ 52 <= N / D) by (apply Z.div_le_lower_bound; lia).
    destruct Hcases as [-> | [-> _]]; lia. }
  set (m := round_half_even N D) in *.
  destruct (Z.leb_spec 0 e) as [He|He]; cbn [andb].
  - destruct (Z.leb_spec (2 ^ 1024) (m * 2 ^ e)) as [|Hfit]; [discriminate|].
    intros [= <-]. cbn [mant expo].
    rewrite (abs_signed a b m Ha Hb Hm0).
    repeat split; auto; lia.
  - intros [= <-]. cbn [mant expo].
    rewrite (abs_signed a b m Ha Hb Hm0).
    repeat split; auto; lia.
Qed.

(** Both operands below [2^53] in magnitude: [int(a / b)] is the integer
    quotient truncated toward zero, as if no float were involved. *)
Lemma int_truediv_exact a b :
  Z.abs a < 2 ^ 53 -> 0 < b < 2 ^ 53 ->
  int_truediv a b = Ok (Z.quot a b).
Proof.
  intros Ha [Hb0 Hb].
  unfold int_truediv, truediv.
  destruct (Z.eqb_spec b 0) as [|_]; [lia|].
  destruct (Z.eqb_spec a 0) as [->|Ha0]; [reflexivity|].
  replace (Z.abs b) with b by lia. replace (Z.sgn b) with 1 by lia.
  set (n := Z.abs a) in *.
  assert (Hn : 0 < n) by lia.
  pose proof (quotient_exponent_le n b) as Hk.
  assert (Hln : Z.log2 n <= 52)
    by (apply Z.lt_succ_r, Z.log2_lt_pow2; [lia | exact Ha]).
  assert (Hlb : Z.log2 b <= 52)
    by (apply Z.lt_succ_r, Z.log2_lt_pow2; [lia | exact Hb]).
  pose proof (Z.log2_nonneg b) as Hlb0.
  destruct (Z.log2_spec b Hb0) as [_ Hbhi].
  set (e := Z.max (quotient_exponent n b - 52) (-1074)).
  set (s := - e).
  assert (Hs : Z.log2 b <= s) by lia.
  replace (Z.max 0 s) with s by lia.
  replace (Z.max 0 e) with 0 by lia.
  rewrite Z.pow_0_r, Z.mul_1_r.
  assert (HP : 0 < 2 ^ s) by (apply Z.pow_pos_nonneg; lia).
  assert (HbP : b < 2 * 2 ^ s).
  { rewrite <- Z.pow_succ_r by lia.
    eapply Z.lt_le_trans; [exact Hbhi|].
    apply Z.pow_le_mono_r; lia. }
  pose proof (round_then_truncate n b (2 ^ s) ltac:(lia) Hb0 HP HbP) as Hm.
  pose proof (round_half_even_nonneg (n * 2 ^ s) b ltac:(lia) Hb0) as Hm0.
  set (m := round_half_even (n * 2 ^ s) b) in *.
  assert (Hq : 0 <= n / b < 2 ^ 53).
  { split; [apply Z.div_pos; lia|].
    apply Z.div_lt_upper_bound; nia. }
  assert (Hquot : Z.quot a b = Z.sgn a * (n / b)).
  { rewrite Z.quot_div by lia. subst n.
    replace (Z.abs b) with b by lia. replace (Z.sgn b) with 1 by lia. lia. }
  destruct (Z.leb_spec 0 e) as [He|He].
  - assert (e = 0) by lia. assert (Hs0 : s = 0) by lia.
    rewrite Hs0, Z.pow_0_r, Z.div_1_r in Hm.
    replace (m * 2 ^ e) with m by (replace e with 0 by lia; lia).
    destruct (Z.leb_spec (2 ^ 1024) m) as [Hbig|_].
    { exfalso. assert (2 ^ 53 < 2 ^ 1024) by (apply Z.pow_lt_mono_r; lia). lia. }
    simpl. unfold int_of_float. simpl.
    destruct (Z.leb_spec 0 e); [|lia].
    f_equal. rewrite Hquot, <- Hm. replace e with 0 by lia.
    rewrite Z.pow_0_r. ring.
  - simpl. unfold int_of_float. simpl.
    destruct (Z.leb_spec 0 e); [lia|].
    f_equal. fold s. rewrite Hquot, <- Hm.
    destruct (Z.sgn_spec a) as [[_ ->] | [[? _] | [_ ->]]]; [|lia|].
    + rewrite !Z.mul_1_l. apply Z.quot_div_nonneg; lia.
    + replace (-1 * 1 * m) with (- m) by lia.
      rewrite Z.quot_opp_l by lia.
      rewrite Z.quot_div_nonneg by lia. lia.
Qed.

(** With a dividend below [2^1023] in magnitude the division cannot
    overflow, whatever the non-zero divisor. *)
Lemma int_truediv_no_overflow a b :
  Z.abs a < 2 ^ 1023 -> b <> 0 ->
  exists v, int_truediv a b = Ok v.
Proof.
  intros Ha Hb.
  unfold int_truediv, truediv.
  destruct (Z.eqb_spec b 0) as [|_]; [lia|].
  destruct (Z.eqb_spec a 0) as [->|Ha0]; [eexists; reflexivity|].
  set (n := Z.abs a) in *. set (d := Z.abs b).
  assert (Hn : 0 < n) by lia. assert (Hd : 0 < d) by lia.
  pose proof (quotient_exponent_le n d) as Hk.
  assert (Hln : Z.log2 n <= 1022)
    by (apply Z.lt_succ_r, Z.log2_lt_pow2; [lia | exact Ha]).
  pose proof (Z.log2_nonneg d) as Hld0.
  set (e := Z.max (quotient_exponent n d - 52) (-1074)).
  destruct (Z.leb_spec 0 e) as [He|He]; [|eexists; reflexivity].
  replace (Z.max 0 (- e)) with 0 by lia.
  replace (Z.max 0 e) with e by lia.
  rewrite Z.pow_0_r, Z.mul_1_r.
  assert (HP : 0 < 2 ^ e) by (apply Z.pow_pos_nonneg; lia).
  assert (HPle : 2 ^ e <= 2 ^ 970) by (apply Z.pow_le_mono_r; lia).
  assert (Hden : 0 < d * 2 ^ e) by nia.
  pose proof (Z.div_mod n (d * 2 ^ e) ltac:(lia)) as Hdm.
  pose proof (Z.mod_pos_bound n (d * 2 ^ e) Hden) as Hr.
  pose proof (Z.div_pos n (d * 2 ^ e) ltac:(lia) Hden) as Hq0.
  set (m := round_half_even n (d * 2 ^ e)).
  assert (Hm : m * 2 ^ e <= n + 2 ^ e).
  { subst m.
    destruct (round_half_even_cases n (d * 2 ^ e)) as [-> | [-> _]]; nia. }
  assert (H1024 : 2 ^ 1023 + 2 ^ 970 < 2 ^ 1024).
  { replace (2 ^ 1024) with (2 ^ 1023 + 2 ^ 1023)
      by (change 1024 with (Z.succ 1023); rewrite Z.pow_succ_r; lia).
    assert (2 ^ 970 < 2 ^ 1023) by (apply Z.pow_lt_mono_r; lia). lia. }
  destruct (Z.leb_spec (2 ^ 1024) (m * 2 ^ e)); [lia|].
  eexists; reflexivity.
Qed.

End TrueDivision.

(** ** Range validation *)

Section Validation.

Lemma validate_normalized_coords_ok x y context :
  0 <= x <= NORMALIZED_RANGE -> 0 <= y <= NORMALIZED_RANGE ->
  validate_normalized_coords x y context = Ok tt.
Proof.
  intros [Hx0 Hx] [Hy0 Hy]. unfold validate_normalized_coords.
  apply Z.leb_le in Hx0, Hx, Hy0, Hy.
  now rewrite Hx0, Hx, Hy0, Hy.
Qed.

Lemma validate_normalized_coords_inv x y context :
  validate_normalized_coords x y context = Ok tt ->
  0 <= x <= NORMALIZED_RANGE /\ 0 <= y <= NORMALIZED_RANGE.
Proof.
  unfold validate_normalized_coords.
  destruct (Z.leb_spec 0 x), (Z.leb_spec x NORMALIZED_RANGE); cbn [andb negb];
    try (destruct (PyStr.str x); discriminate);
  destruct (Z.leb_spec 0 y), (Z.leb_spec y NORMALIZED_RANGE); cbn [andb negb];
    try (destruct (PyStr.str y); discriminate); lia.
Qed.

(** A failure of the validator is a CoordinateError as long as the numbers
    it has to print are within the digit limit. *)
Lemma validate_normalized_coords_raises x y context e :
  Z.abs x < PyStr.str_limit -> Z.abs y < PyStr.str_limit ->
  validate_normalized_coords x y context = Err e ->
  exn_type e = CoordinateError.
Proof.
  intros Hx Hy. unfold validate_normalized_coords.
  rewrite (str_ok x Hx), (str_ok y Hy).
  repeat destruct (negb _); intros [= <-]; reflexivity.
Qed.

(** Whatever the numbers, a failure of the validator is caught by
    [except ValueError]. *)
Lemma validate_normalized_coords_raises_ValueError x y context e :
  validate_normalized_coords x y context = Err e ->
  isinstance e ValueError = true.
Proof.
  unfold validate_normalized_coords.
  destruct (negb _).
  - destruct (PyStr.str x) eqn:Hs; [now intros [= <-]|].
    intros [= <-]. unfold isinstance. now rewrite (str_error x _ Hs).
  - destruct (negb _); [|discriminate].
    destruct (PyStr.str y) eqn:Hs; [now intros [= <-]|].
    intros [= <-]. unfold isinstance. now rewrite (str_error y _ Hs).
Qed.

End Validation.

(** ** The two conversions where the float division is exact *)

Section Conversions.

Variable screen_size : ScreenSize.
Hypothesis width_pos : 0 < width screen_size.
Hypothesis height_pos : 0 < height screen_size.

Lemma normalized_to_absolute_floor norm_x norm_y :
  NORMALIZED_RANGE * width screen_size < 2 ^ 53 ->
  NORMALIZED_RANGE * height screen_size < 2 ^ 53 ->
  0 <= norm_x <= NORMALIZED_RANGE -> 0 <= norm_y <= NORMALIZED_RANGE ->
  normalized_to_absolute norm_x norm_y screen_size =
    Ok (norm_x * width screen_size / NORMALIZED_RANGE,
        norm_y * height screen_size / NORMALIZED_RANGE).
Proof.
  intros HW HH Hx Hy. unfold normalized_to_absolute.
  rewrite validate_normalized_coords_ok by assumption.
  unfold NORMALIZED_RANGE in *.
  assert (H53 : 1000 < 2 ^ 53) by reflexivity.
  rewrite (int_truediv_exact (norm_x * width screen_size) 1000) by nia.
  rewrite (int_truediv_exact (norm_y * height screen_size) 1000) by nia.
  simpl. rewrite !Z.quot_div_nonneg by nia. reflexivity.
Qed.

Lemma absolute_to_normalized_quot abs_x abs_y :
  width screen_size < 2 ^ 53 -> height screen_size < 2 ^ 53 ->
  Z.abs (abs_x * NORMALIZED_RANGE) < 2 ^ 53 ->
  Z.abs (abs_y * NORMALIZED_RANGE) < 2 ^ 53 ->
  absolute_to_normalized abs_x abs_y screen_size =
    Ok (Z.max 0 (Z.min NORMALIZED_RANGE
                   (Z.quot (abs_x * NORMALIZED_RANGE) (width screen_size))),
        Z.max 0 (Z.min NORMALIZED_RANGE
                   (Z.quot (abs_y * NORMALIZED_RANGE) (height screen_size)))).
Proof.
  intros HW HH Hx Hy. unfold absolute_to_normalized.
  rewrite (int_truediv_exact _ (width screen_size)) by (auto; lia).
  rewrite (int_truediv_exact _ (height screen_size)) by (auto; lia).
  reflexivity.
Qed.

Lemma absolute_to_normalized_clamped abs_x abs_y :
  Z.abs (abs_x * NORMALIZED_RANGE) < 2 ^ 1023 ->
  Z.abs (abs_y * NORMALIZED_RANGE) < 2 ^ 1023 ->
  exists norm_x norm_y,
    absolute_to_normalized abs_x abs_y screen_size = Ok (norm_x, norm_y) /\
    0 <= norm_x <= NORMALIZED_RANGE /\ 0 <= norm_y <= NORMALIZED_RANGE.
Proof.
  intros Hx Hy. unfold absolute_to_normalized.
  destruct (int_truediv_no_overflow _ (width screen_size) Hx) as [vx ->];
    [lia|].
  destruct (int_truediv_no_overflow _ (height screen_size) Hy) as [vy ->];
    [lia|].
  simpl. do 2 eexists. split; [reflexivity|].
  unfold NORMALIZED_RANGE. lia.
Qed.

(** Out-of-screen pixels saturate: a pixel at or left of the origin maps to
    0, a pixel at or beyond the width maps to 1000 (x axis shown; the y
    axis is computed by the same expression). *)
Lemma absolute_to_normalized_saturates abs_x abs_y norm_x norm_y :
  width screen_size < 2 ^ 53 -> height screen_size < 2 ^ 53 ->
  Z.abs (abs_x * NORMALIZED_RANGE) < 2 ^ 53 ->
  Z.abs (abs_y * NORMALIZED_RANGE) < 2 ^ 53 ->
  absolute_to_normalized abs_x abs_y screen_size = Ok (norm_x, norm_y) ->
  (abs_x <= 0 -> norm_x = 0) /\
  (width screen_size <= abs_x -> norm_x = NORMALIZED_RANGE).
Proof.
  intros HW HH Hx Hy.
  rewrite absolute_to_normalized_quot by assumption.
  intros [= <- _]. unfold NORMALIZED_RANGE in *. split; intros Ha.
  - assert (Z.quot (abs_x * 1000) (width screen_size) <= 0); [|lia].
    replace (abs_x * 1000) with (- (- abs_x * 1000)) by lia.
    rewrite Z.quot_opp_l, Z.quot_div_nonneg by lia.
    assert (0 <= - abs_x * 1000 / width screen_size)
      by (apply Z.div_pos; lia).
    lia.
  - rewrite Z.quot_div_nonneg by lia.
    assert (1000 <= abs_x * 1000 / width screen_size)
      by (apply Z.div_le_lower_bound; lia).
    lia.
Qed.

End Conversions.

(** ** normalized_to_absolute: value and range *)

(** C3, as stated, fails on a screen wider than [2^53 / 1000] pixels: with
    width [2^53 + 1] the exact quotient [1000 * (2^53 + 1) / 1000] is
    [2^53 + 1], which is no binary64 value; the division rounds it to
    [2^53] and the function returns that, not the floor. *)
Lemma normalized_to_absolute_rounds_on_wide_screen :
  0 < width (mkScreenSize (2 ^ 53 + 1) 1) /\
  0 < height (mkScreenSize (2 ^ 53 + 1) 1) /\
  normalized_to_absolute 1000 0 (mkScreenSize (2 ^ 53 + 1) 1)
    = Ok (2 ^ 53, 0) /\
  1000 * (2 ^ 53 + 1) / 1000 = 2 ^ 53 + 1 /\
  2 ^ 53 <> 2 ^ 53 + 1.
Proof. vm_compute. repeat split; congruence. Qed.

(** C3 (amended).  For every ScreenSize with positive width and height
    whose products with 1000 stay below [2^53], and every normalized pair
    in [0, 1000], normalized_to_absolute returns exactly
    [(floor(norm_x * width / 1000), floor(norm_y * height / 1000))]; the
    floor coincides with truncation toward zero, and the result is never
    rounded up: [abs * 1000 <= norm * dimension < (abs + 1) * 1000]. *)
Theorem normalized_to_absolute_is_floor screen_size norm_x norm_y :
  0 < width screen_size -> 0 < height screen_size ->
  NORMALIZED_RANGE * width screen_size < 2 ^ 53 ->
  NORMALIZED_RANGE * height screen_size < 2 ^ 53 ->
  0 <= norm_x <= NORMALIZED_RANGE -> 0 <= norm_y <= NORMALIZED_RANGE ->
  exists abs_x abs_y,
    normalized_to_absolute norm_x norm_y screen_size = Ok (abs_x, abs_y) /\
    abs_x = norm_x * width screen_size / 1000 /\
    abs_y = norm_y * height screen_size / 1000 /\
    abs_x = Z.quot (norm_x * width screen_size) 1000 /\
    abs_y = Z.quot (norm_y * height screen_size) 1000 /\
    abs_x * 1000 <= norm_x * width screen_size < (abs_x + 1) * 1000 /\
    abs_y * 1000 <= norm_y * height screen_size < (abs_y + 1) * 1000.
Proof.
  intros HW0 HH0 HW HH Hx Hy.
  rewrite (normalized_to_absolute_floor screen_size HW0 HH0) by assumption.
  unfold NORMALIZED_RANGE in *.
  do 2 eexists. split; [reflexivity|].
  rewrite !Z.quot_div_nonneg by nia.
  pose proof (Z.div_mod (norm_x * width screen_size) 1000 ltac:(lia)).
  pose proof (Z.mod_pos_bound (norm_x * width screen_size) 1000 ltac:(lia)).
  pose proof (Z.div_mod (norm_y * height screen_size) 1000 ltac:(lia)).
  pose proof (Z.mod_pos_bound (norm_y * height screen_size) 1000 ltac:(lia)).
  repeat split; lia.
Qed.

Lemma normalized_to_absolute_is_floor_witness :
  exists abs_x abs_y,
    normalized_to_absolute 333 777 (mkScreenSize 1080 2400) = Ok (abs_x, abs_y) /\
    abs_x = 333 * 1080 / 1000 /\
    abs_y = 777 * 2400 / 1000 /\
    abs_x = Z.quot (333 * 1080) 1000 /\
    abs_y = Z.quot (777 * 2400) 1000 /\
    abs_x * 1000 <= 333 * 1080 < (abs_x + 1) * 1000 /\
    abs_y * 1000 <= 777 * 2400 < (abs_y + 1) * 1000.
Proof.
  apply (normalized_to_absolute_is_floor (mkScreenSize 1080 2400) 333 777);
    simpl; unfold NORMALIZED_RANGE; try lia; reflexivity.
Defined.

(** C4, as stated, fails on a screen wider than [2^53 / 1000] pixels: with
    width [2^53 + 3] the quotient of [1000 * width] by 1000 lies half way
    between two binary64 values and is rounded up to [2^53 + 4], one pixel
    beyond the width. *)
Lemma normalized_to_absolute_exceeds_wide_screen :
  0 < width (mkScreenSize (2 ^ 53 + 3) 1) /\
  0 < height (mkScreenSize (2 ^ 53 + 3) 1) /\
  normalized_to_absolute 1000 0 (mkScreenSize (2 ^ 53 + 3) 1)
    = Ok (2 ^ 53 + 4, 0) /\
  width (mkScreenSize (2 ^ 53 + 3) 1) < 2 ^ 53 + 4.
Proof. vm_compute. repeat split; congruence. Qed.

(** C4 (amended).  For every ScreenSize with positive width and height
    whose products with 1000 stay below [2^53], and every normalized pair
    in [0, 1000] x [0, 1000], normalized_to_absolute succeeds and its result
    lies in [0, width] x [0, height]. *)
Theorem normalized_to_absolute_in_screen screen_size norm_x norm_y :
  0 < width screen_size -> 0 < height screen_size ->
  NORMALIZED_RANGE * width screen_size < 2 ^ 53 ->
  NORMALIZED_RANGE * height screen_size < 2 ^ 53 ->
  0 <= norm_x <= NORMALIZED_RANGE -> 0 <= norm_y <= NORMALIZED_RANGE ->
  exists abs_x abs_y,
    normalized_to_absolute norm_x norm_y screen_size = Ok (abs_x, abs_y) /\
    0 <= abs_x <= width screen_size /\
    0 <= abs_y <= height screen_size.
Proof.
  intros HW0 HH0 HW HH Hx Hy.
  rewrite (normalized_to_absolute_floor screen_size HW0 HH0) by assumption.
  unfold NORMALIZED_RANGE in *.
  do 2 eexists. split; [reflexivity|].
  repeat split.
  - apply Z.div_pos; nia.
  - apply Z.div_le_upper_bound; nia.
  - apply Z.div_pos; nia.
  - apply Z.div_le_upper_bound; nia.
Qed.

Lemma normalized_to_absolute_in_screen_witness :
  exists abs_x abs_y,
    normalized_to_absolute 1000 1000 (mkScreenSize 1080 2400)
      = Ok (abs_x, abs_y) /\
    0 <= abs_x <= 1080 /\ 0 <= abs_y <= 2400.
Proof.
  apply (normalized_to_absolute_in_screen (mkScreenSize 1080 2400) 1000 1000);
    simpl; unfold NORMALIZED_RANGE; try lia; reflexivity.
Defined.

(** ** Round trip normalized -> absolute -> normalized *)

(** C1, as stated, fails on screens narrower than the normalized range: on
    a 720 x 1280 screen the normalized x = 4 maps to pixel 2, which maps
    back to 2, two units away.  It also fails for dimensions so large that
    the float division overflows: the first conversion then raises. *)
Lemma roundtrip_drifts_on_720p :
  normalized_to_absolute 4 0 (mkScreenSize 720 1280) = Ok (2, 0) /\
  absolute_to_normalized 2 0 (mkScreenSize 720 1280) = Ok (2, 0) /\
  1 < Z.abs (2 - 4) /\
  normalized_to_absolute 1000 0 (mkScreenSize (2 ^ 1024) 1)
    = raise OverflowError "integer division result too large for a float".
Proof. vm_compute. repeat split; congruence. Qed.

(** C1 (amended).  For every ScreenSize whose width and height are at least
    999 pixels and whose products with 1000 stay below [2^53], and every
    normalized pair (x, y) in [0, 1000], both conversions succeed and
    absolute_to_normalized applied to normalized_to_absolute(x, y, S)
    yields a pair whose components are x or x - 1, and y or y - 1: each
    differs from the original by at most 1. *)
Theorem roundtrip_within_one screen_size x y :
  999 <= width screen_size -> 999 <= height screen_size ->
  NORMALIZED_RANGE * width screen_size < 2 ^ 53 ->
  NORMALIZED_RANGE * height screen_size < 2 ^ 53 ->
  0 <= x <= NORMALIZED_RANGE -> 0 <= y <= NORMALIZED_RANGE ->
  exists abs_x abs_y norm_x norm_y,
    normalized_to_absolute x y screen_size = Ok (abs_x, abs_y) /\
    absolute_to_normalized abs_x abs_y screen_size = Ok (norm_x, norm_y) /\
    x - 1 <= norm_x <= x /\ y - 1 <= norm_y <= y /\
    Z.abs (norm_x - x) <= 1 /\ Z.abs (norm_y - y) <= 1.
Proof.
  intros HW9 HH9 HW HH Hx Hy.
  assert (HW0 : 0 < width screen_size) by lia.
  assert (HH0 : 0 < height screen_size) by lia.
  rewrite (normalized_to_absolute_floor screen_size HW0 HH0) by assumption.
  unfold NORMALIZED_RANGE in *.
  set (W := width screen_size) in *. set (H := height screen_size) in *.
  pose proof (Z.div_mod (x * W) 1000 ltac:(lia)) as Hdx.
  pose proof (Z.mod_pos_bound (x * W) 1000 ltac:(lia)) as Hrx.
  pose proof (Z.div_mod (y * H) 1000 ltac:(lia)) as Hdy.
  pose proof (Z.mod_pos_bound (y * H) 1000 ltac:(lia)) as Hry.
  set (abs_x := x * W / 1000) in *. set (abs_y := y * H / 1000) in *.
  assert (Hax : 0 <= abs_x <= W) by nia.
  assert (Hay : 0 <= abs_y <= H) by nia.
  exists abs_x, abs_y. do 2 eexists. split; [reflexivity|].
  split.
  { apply (absolute_to_normalized_quot screen_size HW0 HH0);
      fold W; fold H; unfold NORMALIZED_RANGE; lia. }
  fold W. fold H. unfold NORMALIZED_RANGE.
  rewrite !Z.quot_div_nonneg by lia.
  assert (Hqx : x - 1 <= abs_x * 1000 / W <= x).
  { split; [apply Z.div_le_lower_bound | apply Z.div_le_upper_bound]; nia. }
  assert (Hqy : y - 1 <= abs_y * 1000 / H <= y).
  { split; [apply Z.div_le_lower_bound | apply Z.div_le_upper_bound]; nia. }
  assert (0 <= abs_x * 1000 / W) by (apply Z.div_pos; lia).
  assert (0 <= abs_y * 1000 / H) by (apply Z.div_pos; lia).
  lia.
Qed.

Lemma roundtrip_within_one_witness :
  exists abs_x abs_y norm_x norm_y,
    normalized_to_absolute 333 777 (mkScreenSize 1080 2400)
      = Ok (abs_x, abs_y) /\
    absolute_to_normalized abs_x abs_y (mkScreenSize 1080 2400)
      = Ok (norm_x, norm_y) /\
    333 - 1 <= norm_x <= 333 /\ 777 - 1 <= norm_y <= 777 /\
    Z.abs (norm_x - 333) <= 1 /\ Z.abs (norm_y - 777) <= 1.
Proof.
  apply (roundtrip_within_one (mkScreenSize 1080 2400) 333 777);
    simpl; unfold NORMALIZED_RANGE; try lia; reflexivity.
Defined.

(** ** absolute_to_normalized: clamping *)

(** C5, as stated, fails for pixel values so large that the float division
    overflows: on a 1080 x 2400 screen, [10^400 * 1000 / 1080] exceeds the
    largest binary64 value and the division raises OverflowError before any
    clamping. *)
Lemma absolute_to_normalized_overflows :
  0 < width (mkScreenSize 1080 2400) /\
  0 < height (mkScreenSize 1080 2400) /\
  absolute_to_normalized (10 ^ 400) 0 (mkScreenSize 1080 2400)
    = raise OverflowError "integer division result too large for a float" /\
  is_ok (absolute_to_normalized (10 ^ 400) 0 (mkScreenSize 1080 2400)) = false.
Proof. vm_compute. repeat split; congruence. Qed.

(** C5 (amended).  For every ScreenSize with positive width and height and
    every pair of integers (abs_x, abs_y) whose products with 1000 are below
    [2^1023] in magnitude, negative values and values exceeding the screen
    dimensions included, absolute_to_normalized does not fail and returns a
    pair with both components in [0, 1000]. *)
Theorem absolute_to_normalized_total_and_clamped screen_size abs_x abs_y :
  0 < width screen_size -> 0 < height screen_size ->
  Z.abs (abs_x * NORMALIZED_RANGE) < 2 ^ 1023 ->
  Z.abs (abs_y * NORMALIZED_RANGE) < 2 ^ 1023 ->
  exists norm_x norm_y,
    absolute_to_normalized abs_x abs_y screen_size = Ok (norm_x, norm_y) /\
    0 <= norm_x <= NORMALIZED_RANGE /\ 0 <= norm_y <= NORMALIZED_RANGE.
Proof.
  intros HW0 HH0. apply absolute_to_normalized_clamped; assumption.
Qed.

Lemma absolute_to_normalized_total_and_clamped_witness :
  exists norm_x norm_y,
    absolute_to_normalized (-50) 99999 (mkScreenSize 1080 2400)
      = Ok (norm_x, norm_y) /\
    0 <= norm_x <= NORMALIZED_RANGE /\ 0 <= norm_y <= NORMALIZED_RANGE.
Proof.
  apply (absolute_to_normalized_total_and_clamped
           (mkScreenSize 1080 2400) (-50) 99999);
    simpl; try lia; reflexivity.
Defined.

(** ** Areas *)

Section Areas.

Lemma append_assoc (s1 s2 s3 : string) :
  (s1 +:+ s2) +:+ s3 = s1 +:+ (s2 +:+ s3).
Proof.
  induction s1 as [|c s1 IH]; [reflexivity|].
  exact (f_equal (String c) IH).
Qed.

(** The prefix put before every message starts with the caller's label. *)
Lemma ctx_prefix_label context :
  exists sep, ctx_prefix context = context +:+ sep.
Proof.
  destruct context as [|c context]; [now exists EmptyString|].
  exists ": "%string. reflexivity.
Qed.

Variables x1 y1 x2 y2 : Z.
Variable context : string.
Hypothesis x1_range : 0 <= x1 <= NORMALIZED_RANGE.
Hypothesis y1_range : 0 <= y1 <= NORMALIZED_RANGE.
Hypothesis x2_range : 0 <= x2 <= NORMALIZED_RANGE.
Hypothesis y2_range : 0 <= y2 <= NORMALIZED_RANGE.

Lemma validate_normalized_area_in_range :
  validate_normalized_area x1 y1 x2 y2 context =
    if x1 >? x2 then
      raise CoordinateError
        (ctx_prefix context +:+ "Invalid area: x1 (" +:+ PyStr.decimal x1
         +:+ ") > x2 (" +:+ PyStr.decimal x2 +:+ "). "
         +:+ "Top-left X must be <= bottom-right X")
    else if y1 >? y2 then
      raise CoordinateError
        (ctx_prefix context +:+ "Invalid area: y1 (" +:+ PyStr.decimal y1
         +:+ ") > y2 (" +:+ PyStr.decimal y2 +:+ "). "
         +:+ "Top-left Y must be <= bottom-right Y")
    else Ok tt.
Proof.
  unfold validate_normalized_area.
  rewrite !validate_normalized_coords_ok by assumption.
  rewrite (str_normalized x1), (str_normalized x2),
    (str_normalized y1), (str_normalized y2) by assumption.
  reflexivity.
Qed.

Lemma validate_normalized_area_ok :
  x1 <= x2 -> y1 <= y2 ->
  validate_normalized_area x1 y1 x2 y2 context = Ok tt.
Proof.
  intros Hx Hy. rewrite validate_normalized_area_in_range.
  rewrite !Z.gtb_ltb.
  destruct (Z.ltb_spec x2 x1); [lia|].
  destruct (Z.ltb_spec y2 y1); [lia|]. reflexivity.
Qed.

End Areas.

(** C6.  For every four integers x1, y1, x2, y2 each in [0, 1000],
    validate_normalized_area succeeds exactly when x1 <= x2 and y1 <= y2
    and fails exactly when x1 > x2 or y1 > y2.  The failure is a
    CoordinateError whose message names the violated constraint (x1 > x2,
    checked first, or y1 > y2) with the two offending values, and starts
    with the caller-supplied context label. *)
Theorem validate_normalized_area_ordering x1 y1 x2 y2 context :
  0 <= x1 <= NORMALIZED_RANGE -> 0 <= y1 <= NORMALIZED_RANGE ->
  0 <= x2 <= NORMALIZED_RANGE -> 0 <= y2 <= NORMALIZED_RANGE ->
  (validate_normalized_area x1 y1 x2 y2 context = Ok tt <->
     x1 <= x2 /\ y1 <= y2) /\
  (is_ok (validate_normalized_area x1 y1 x2 y2 context) = false <->
     x1 > x2 \/ y1 > y2) /\
  (x1 > x2 ->
     validate_normalized_area x1 y1 x2 y2 context =
       raise CoordinateError
         (ctx_prefix context +:+ "Invalid area: x1 (" +:+ PyStr.decimal x1
          +:+ ") > x2 (" +:+ PyStr.decimal x2 +:+ "). "
          +:+ "Top-left X must be <= bottom-right X")) /\
  (x1 <= x2 -> y1 > y2 ->
     validate_normalized_area x1 y1 x2 y2 context =
       raise CoordinateError
         (ctx_prefix context +:+ "Invalid area: y1 (" +:+ PyStr.decimal y1
          +:+ ") > y2 (" +:+ PyStr.decimal y2 +:+ "). "
          +:+ "Top-left Y must be <= bottom-right Y")) /\
  (forall e, validate_normalized_area x1 y1 x2 y2 context = Err e ->
     exn_type e = CoordinateError /\
     exists rest, exn_msg e = context +:+ rest).
Proof.
  intros Hx1 Hy1 Hx2 Hy2.
  rewrite (validate_normalized_area_in_range x1 y1 x2 y2 context)
    by assumption.
  destruct (ctx_prefix_label context) as [sep ->].
  assert (Hmsg : forall (c : exn_class) (tail : string) (e : exn),
             @raise unit c ((context +:+ sep) +:+ tail) = Err e ->
             exn_type e = c /\ exists rest, exn_msg e = context +:+ rest).
  { intros c tail e [= <-]. split; [reflexivity|].
    cbn [exn_msg]. eexists. apply append_assoc. }
  rewrite !Z.gtb_ltb.
  destruct (Z.ltb_spec x2 x1) as [Hx|Hx];
    [|destruct (Z.ltb_spec y2 y1) as [Hy|Hy]].
  all: repeat split; intros;
    try match goal with
        | He : raise _ _ = Err _ |- _ => apply Hmsg in He; apply He
        end;
    try (reflexivity || lia || discriminate).
Qed.

Lemma validate_normalized_area_ordering_witness :
  validate_normalized_area 700 10 300 900 "tap" =
    raise CoordinateError
      "tap: Invalid area: x1 (700) > x2 (300). Top-left X must be <= bottom-right X".
Proof.
  apply (validate_normalized_area_ordering 700 10 300 900 "tap");
    unfold NORMALIZED_RANGE; lia.
Defined.

(** C8.  For every valid normalized area (all components in [0, 1000],
    x1 <= x2, y1 <= y2) and every ScreenSize, normalized_area_to_center
    equals normalized_to_absolute applied to the floor-division midpoint
    ((x1+x2)//2, (y1+y2)//2); the midpoint lies between the two corners and
    is the lower of the two candidates when the sum is odd.  In particular
    normalized_area_to_center(0, 0, 1000, 1000, ScreenSize(1080, 2400)) is
    (540, 1200). *)
Theorem normalized_area_to_center_midpoint :
  (forall x1 y1 x2 y2 screen_size,
     0 <= x1 <= NORMALIZED_RANGE -> 0 <= y1 <= NORMALIZED_RANGE ->
     0 <= x2 <= NORMALIZED_RANGE -> 0 <= y2 <= NORMALIZED_RANGE ->
     x1 <= x2 -> y1 <= y2 ->
     normalized_area_to_center x1 y1 x2 y2 screen_size =
       normalized_to_absolute ((x1 + x2) / 2) ((y1 + y2) / 2) screen_size /\
     x1 <= (x1 + x2) / 2 <= x2 /\ y1 <= (y1 + y2) / 2 <= y2 /\
     2 * ((x1 + x2) / 2) <= x1 + x2 < 2 * ((x1 + x2) / 2) + 2 /\
     2 * ((y1 + y2) / 2) <= y1 + y2 < 2 * ((y1 + y2) / 2) + 2) /\
  normalized_area_to_center 0 0 1000 1000 (mkScreenSize 1080 2400)
    = Ok (540, 1200).
Proof.
  split; [|reflexivity].
  intros x1 y1 x2 y2 screen_size Hx1 Hy1 Hx2 Hy2 Hx Hy.
  split.
  - unfold normalized_area_to_center.
    rewrite validate_normalized_area_ok by assumption. reflexivity.
  - pose proof (Z.div_mod (x1 + x2) 2 ltac:(lia)).
    pose proof (Z.mod_pos_bound (x1 + x2) 2 ltac:(lia)).
    pose proof (Z.div_mod (y1 + y2) 2 ltac:(lia)).
    pose proof (Z.mod_pos_bound (y1 + y2) 2 ltac:(lia)).
    lia.
Qed.

Lemma normalized_area_to_center_midpoint_witness :
  normalized_area_to_center 100 200 301 400 (mkScreenSize 1080 2400) =
    normalized_to_absolute 200 300 (mkScreenSize 1080 2400).
Proof.
  apply (proj1 normalized_area_to_center_midpoint
           100 200 301 400 (mkScreenSize 1080 2400));
    unfold NORMALIZED_RANGE; lia.
Defined.

(** ** Construction of ScreenSize *)

Section Construction.

Lemma str_1080 : PyStr.str 1080 = Ok "1080"%string.
Proof. reflexivity. Qed.

Lemma str_2400 : PyStr.str 2400 = Ok "2400"%string.
Proof. reflexivity. Qed.

(** The constructor on a non-positive dimension: the message is formatted
    first, so the failure is the CoordinateError when the number printed is
    within the digit limit and the ValueError of the formatting otherwise;
    the width is looked at first. *)
Lemma ScreenSize_new_cases w h :
  (0 < w -> 0 < h -> ScreenSize_new w h = Ok (mkScreenSize w h)) /\
  (w <= 0 -> Z.abs w < PyStr.str_limit ->
     ScreenSize_new w h =
       raise CoordinateError
         ("Screen width must be positive, got " +:+ PyStr.decimal w)) /\
  (w <= 0 -> PyStr.str_limit <= Z.abs w ->
     ScreenSize_new w h = PyStr.str_limit_exceeded) /\
  (0 < w -> h <= 0 -> Z.abs h < PyStr.str_limit ->
     ScreenSize_new w h =
       raise CoordinateError
         ("Screen height must be positive, got " +:+ PyStr.decimal h)) /\
  (0 < w -> h <= 0 -> PyStr.str_limit <= Z.abs h ->
     ScreenSize_new w h = PyStr.str_limit_exceeded).
Proof.
  unfold ScreenSize_new, __post_init__. cbn [width height].
  destruct (Z.leb_spec w 0) as [Hw|Hw]; [|destruct (Z.leb_spec h 0) as [Hh|Hh]];
    repeat split; intros; try lia;
    try (rewrite str_ok by assumption; reflexivity);
    try (rewrite str_raises by assumption; reflexivity);
    reflexivity.
Qed.

Lemma ScreenSize_new_raises w h e :
  Z.abs w < PyStr.str_limit -> Z.abs h < PyStr.str_limit ->
  ScreenSize_new w h = Err e -> exn_type e = CoordinateError.
Proof.
  intros Lw Lh.
  destruct (ScreenSize_new_cases w h) as (Hok & Hw & _ & Hh & _).
  destruct (Z_le_gt_dec w 0) as [Cw|Cw]; [rewrite Hw by assumption|].
  - now intros [= <-].
  - destruct (Z_le_gt_dec h 0) as [Ch|Ch];
      [rewrite Hh by (assumption || lia) | rewrite Hok by lia];
      [now intros [= <-] | discriminate].
Qed.

Lemma ScreenSize_new_raises_ValueError w h e :
  ScreenSize_new w h = Err e -> isinstance e ValueError = true.
Proof.
  destruct (ScreenSize_new_cases w h) as (Hok & Hw & Hw' & Hh & Hh').
  destruct (Z_le_gt_dec w 0) as [Cw|Cw].
  - destruct (Z_lt_le_dec (Z.abs w) PyStr.str_limit) as [L|L];
      [rewrite Hw by assumption | rewrite Hw' by assumption];
      now intros [= <-].
  - destruct (Z_le_gt_dec h 0) as [Ch|Ch]; [|rewrite Hok by lia; discriminate].
    destruct (Z_lt_le_dec (Z.abs h) PyStr.str_limit) as [L|L];
      [rewrite Hh by (assumption || lia) | rewrite Hh' by (assumption || lia)];
      now intros [= <-].
Qed.

(** from_device_context in terms of the two resolved dimensions. *)
Lemma from_device_context_cases
    (device_context : gmap string (gmap string Z)) :
  let w := default 1080
             (default ∅ (device_context !! "screen_bounds"%string)
                !! "width"%string) in
  let h := default 2400
             (default ∅ (device_context !! "screen_bounds"%string)
                !! "height"%string) in
  (0 < w -> 0 < h ->
     from_device_context device_context = Ok (mkScreenSize w h)) /\
  (w <= 0 \/ h <= 0 ->
   Z.abs w < PyStr.str_limit -> Z.abs h < PyStr.str_limit ->
     from_device_context device_context =
       raise CoordinateError
         ("Invalid screen dimensions: " +:+ PyStr.decimal w +:+ "x"
          +:+ PyStr.decimal h +:+ ". "
          +:+ "Both width and height must be positive.")) /\
  (w <= 0 \/ h <= 0 ->
   PyStr.str_limit <= Z.abs w \/ PyStr.str_limit <= Z.abs h ->
     from_device_context device_context = PyStr.str_limit_exceeded).
Proof.
  cbv zeta. unfold from_device_context.
  set (w := default 1080 _). set (h := default 2400 _).
  split; [|split].
  - intros Hw Hh.
    destruct (Z.leb_spec w 0); [lia|]. destruct (Z.leb_spec h 0); [lia|].
    cbn [orb]. now apply ScreenSize_new_cases.
  - intros Hbad Lw Lh.
    replace ((w <=? 0) || (h <=? 0)) with true
      by (symmetry; apply orb_true_iff; rewrite !Z.leb_le; exact Hbad).
    now rewrite (str_ok w Lw), (str_ok h Lh).
  - intros Hbad Hbig.
    replace ((w <=? 0) || (h <=? 0)) with true
      by (symmetry; apply orb_true_iff; rewrite !Z.leb_le; exact Hbad).
    destruct (Z_lt_le_dec (Z.abs w) PyStr.str_limit) as [Lw|Lw].
    + rewrite (str_ok w Lw).
      destruct Hbig as [Hbig|Hbig]; [lia|]. now rewrite (str_raises h Hbig).
    + now rewrite (str_raises w Lw).
Qed.

Lemma from_device_context_raises device_context e :
  Z.abs (default 1080
           (default ∅ (device_context !! "screen_bounds"%string)
              !! "width"%string)) < PyStr.str_limit ->
  Z.abs (default 2400
           (default ∅ (device_context !! "screen_bounds"%string)
              !! "height"%string)) < PyStr.str_limit ->
  from_device_context device_context = Err e ->
  exn_type e = CoordinateError.
Proof.
  intros Lw Lh.
  destruct (from_device_context_cases device_context) as (Hok & Hbad & _).
  cbv zeta in *.
  set (w := default 1080 _) in *. set (h := default 2400 _) in *.
  destruct (Z_le_gt_dec w 0) as [Cw|Cw];
    [rewrite Hbad by (assumption || lia); now intros [= <-]|].
  destruct (Z_le_gt_dec h 0) as [Ch|Ch];
    [rewrite Hbad by (assumption || lia); now intros [= <-]|].
  rewrite Hok by lia. discriminate.
Qed.

End Construction.

(** C7.  ScreenSize construction fails, without handing an instance to the
    caller, whenever width <= 0 or height <= 0.  The failure is always
    caught by [except ValueError]; it is the CoordinateError of
    __post_init__ whenever the two dimensions have at most 4300 digits
    (beyond that, formatting the message raises first).  In particular
    ScreenSize(width=0, height=100) fails; and from_device_context applied
    to the empty mapping yields width 1080 and height 2400. *)
Theorem ScreenSize_construction :
  (forall w h, w <= 0 \/ h <= 0 ->
     is_ok (ScreenSize_new w h) = false /\
     exists e,
       ScreenSize_new w h = Err e /\
       isinstance e ValueError = true /\
       (Z.abs w < PyStr.str_limit -> Z.abs h < PyStr.str_limit ->
        exn_type e = CoordinateError)) /\
  ScreenSize_new 0 100 =
    raise CoordinateError "Screen width must be positive, got 0" /\
  from_device_context ∅ = Ok (mkScreenSize 1080 2400).
Proof.
  split; [|split; reflexivity].
  intros w h Hwh.
  destruct (ScreenSize_new w h) as [s|e] eqn:Hnew.
  - exfalso. destruct (ScreenSize_new_cases w h) as (_ & Hw & Hw' & Hh & Hh').
    destruct (Z_le_gt_dec w 0) as [Cw|Cw].
    + destruct (Z_lt_le_dec (Z.abs w) PyStr.str_limit) as [L|L];
        [rewrite Hw in Hnew by assumption | rewrite Hw' in Hnew by assumption];
        discriminate.
    + assert (Ch : h <= 0) by lia.
      destruct (Z_lt_le_dec (Z.abs h) PyStr.str_limit) as [L|L];
        [rewrite Hh in Hnew by (assumption || lia)
        | rewrite Hh' in Hnew by (assumption || lia)];
        discriminate.
  - split; [reflexivity|]. exists e. split; [reflexivity|]. split.
    + eapply ScreenSize_new_raises_ValueError; exact Hnew.
    + intros Lw Lh. exact (ScreenSize_new_raises w h e Lw Lh Hnew).
Qed.

Lemma ScreenSize_construction_witness :
  is_ok (ScreenSize_new 1080 (-1)) = false /\
  exists e,
    ScreenSize_new 1080 (-1) = Err e /\
    isinstance e ValueError = true /\
    (Z.abs 1080 < PyStr.str_limit -> Z.abs (-1) < PyStr.str_limit ->
     exn_type e = CoordinateError).
Proof.
  apply (proj1 ScreenSize_construction 1080 (-1)). right. lia.
Defined.

(** C10.  from_device_context applies its defaults per key: when the
    screen_bounds sub-mapping is present but lacks the width key, the width
    is 1080 and the height is the one of the mapping; when it lacks the
    height key, the height is 2400 and the width is the one of the mapping.
    The resolved pair is what the function returns when the present
    dimension is positive, and what its CoordinateError reports when the
    present dimension is not positive (for a dimension of at most 4300
    digits; beyond that, formatting the message raises ValueError). *)
Theorem from_device_context_defaults_per_key
    (device_context : gmap string (gmap string Z))
    (screen_bounds : gmap string Z) :
  device_context !! "screen_bounds"%string = Some screen_bounds ->
  (forall h,
     screen_bounds !! "width"%string = None ->
     screen_bounds !! "height"%string = Some h ->
     (0 < h ->
        from_device_context device_context = Ok (mkScreenSize 1080 h)) /\
     (h <= 0 -> Z.abs h < PyStr.str_limit ->
        from_device_context device_context =
          raise CoordinateError
            ("Invalid screen dimensions: 1080x" +:+ PyStr.decimal h +:+ ". "
             +:+ "Both width and height must be positive.")) /\
     (h <= 0 -> PyStr.str_limit <= Z.abs h ->
        from_device_context device_context = PyStr.str_limit_exceeded)) /\
  (forall w,
     screen_bounds !! "width"%string = Some w ->
     screen_bounds !! "height"%string = None ->
     (0 < w ->
        from_device_context device_context = Ok (mkScreenSize w 2400)) /\
     (w <= 0 -> Z.abs w < PyStr.str_limit ->
        from_device_context device_context =
          raise CoordinateError
            ("Invalid screen dimensions: " +:+ PyStr.decimal w +:+ "x2400. "
             +:+ "Both width and height must be positive.")) /\
     (w <= 0 -> PyStr.str_limit <= Z.abs w ->
        from_device_context device_context = PyStr.str_limit_exceeded)).
Proof.
  intros Hsb.
  destruct (from_device_context_cases device_context) as (Hok & Hbad & Hbig).
  cbv zeta in *. rewrite Hsb in *. cbn [default from_option] in *.
  unfold id in *. pose proof str_limit_above_defaults as Hdef.
  split.
  - intros h Hw Hh. rewrite Hw, Hh in *. cbn [default from_option] in *.
    unfold id in *. split; [|split].
    + intros Hpos. apply Hok; lia.
    + intros Hneg Lh. rewrite Hbad by (lia || auto). reflexivity.
    + intros Hneg Lh. apply Hbig; auto.
  - intros w Hw Hh. rewrite Hw, Hh in *. cbn [default from_option] in *.
    unfold id in *. split; [|split].
    + intros Hpos. apply Hok; lia.
    + intros Hneg Lw. rewrite Hbad by (lia || auto). reflexivity.
    + intros Hneg Lw. apply Hbig; auto.
Qed.

Lemma from_device_context_defaults_per_key_witness :
  from_device_context {[ "screen_bounds"%string := {[ "height"%string := 1920 ]} ]}
    = Ok (mkScreenSize 1080 1920).
Proof.
  refine (proj1 (proj1 (from_device_context_defaults_per_key
                   {[ "screen_bounds"%string := {[ "height"%string := 1920 ]} ]}
                   {[ "height"%string := 1920 ]} _) 1920 _ _) _);
    vm_compute; reflexivity.
Defined.

(** ** Parsing bounds strings *)

Section Characters.

Lemma isdigit_plain c :
  PyStr.isdigit c = true ->
  PyStr.isspace c = false /\ Ascii.eqb c "+" = false /\
  Ascii.eqb c "-" = false /\ Ascii.eqb c "_" = false /\
  Ascii.eqb c "," = false.
Proof.
  destruct c as [[] [] [] [] [] [] [] []]; vm_compute;
    intros; repeat split; congruence.
Qed.

Lemma isspace_plain c :
  PyStr.isspace c = true ->
  PyStr.isdigit c = false /\ Ascii.eqb c "_" = false /\
  Ascii.eqb c "," = false.
Proof.
  destruct c as [[] [] [] [] [] [] [] []]; vm_compute;
    intros; repeat split; congruence.
Qed.

End Characters.

Section Strings.

Lemma append_nil_r (s : string) : s +:+ EmptyString = s.
Proof.
  induction s as [|c s IH]; [reflexivity|].
  exact (f_equal (String c) IH).
Qed.

Lemma append_cons c (s t : string) : String c s +:+ t = String c (s +:+ t).
Proof. reflexivity. Qed.

Lemma string_forallb_app f (s t : string) :
  string_forallb f (s +:+ t) = string_forallb f s && string_forallb f t.
Proof.
  induction s as [|c s IH]; [reflexivity|].
  rewrite append_cons. cbn [string_forallb]. now rewrite IH, andb_assoc.
Qed.

Lemma lstrip_app_space (l s : string) :
  all_space l = true -> PyStr.lstrip (l +:+ s) = PyStr.lstrip s.
Proof.
  induction l as [|c l IH]; [reflexivity|].
  cbn [all_space string_forallb]. intros [Hc Hl]%andb_prop.
  rewrite append_cons. cbn [PyStr.lstrip]. rewrite Hc. now apply IH.
Qed.

Lemma lstrip_all_space (r : string) :
  all_space r = true -> PyStr.lstrip r = EmptyString.
Proof.
  intros Hr. rewrite <- (append_nil_r r). now rewrite lstrip_app_space.
Qed.

Lemma scan_digits_digits (d rest : string) : forall acc n,
  all_digits d = true ->
  PyStr.scan_digits false acc n (d +:+ rest) =
    PyStr.scan_digits false (digits_value acc d) (String.length d + n) rest.
Proof.
  induction d as [|c d IH]; intros acc n; [reflexivity|].
  cbn [all_digits string_forallb]. intros [Hc Hd]%andb_prop.
  rewrite append_cons. cbn [PyStr.scan_digits digits_value String.length].
  rewrite Hc, IH by exact Hd. f_equal. lia.
Qed.

Lemma scan_digits_space (r : string) acc n :
  all_space r = true ->
  PyStr.scan_digits false acc n r = Some (acc, n, r).
Proof.
  destruct r as [|c r]; [reflexivity|].
  cbn [all_space string_forallb]. intros [Hc _]%andb_prop.
  destruct (isspace_plain c Hc) as (Hd & Hu & _).
  cbn [PyStr.scan_digits]. now rewrite Hd, Hu.
Qed.

(** A token keeps its sign and digits when text is appended, and is not
    eaten by the white-space skip. *)
Lemma int_token_shape (t : string) :
  int_token t = true ->
  exists negative c d,
    PyStr.split_sign t = (negative, String c d) /\
    PyStr.isdigit c = true /\ all_digits d = true /\
    forall r, PyStr.lstrip (t +:+ r) = t +:+ r /\
              PyStr.split_sign (t +:+ r) = (negative, String c d +:+ r).
Proof.
  unfold int_token. destruct t as [|c t]; [discriminate|].
  cbn [PyStr.split_sign].
  destruct (Ascii.eqb_spec c "+") as [->|Hplus];
    [|destruct (Ascii.eqb_spec c "-") as [->|Hminus]].
  - destruct t as [|c d]; [discriminate|].
    cbn [String.length all_digits string_forallb Nat.eqb negb andb].
    intros [Hc Hd]%andb_prop. exists false, c, d.
    repeat split; assumption || reflexivity.
  - destruct t as [|c d]; [discriminate|].
    cbn [String.length all_digits string_forallb Nat.eqb negb andb].
    intros [Hc Hd]%andb_prop. exists true, c, d.
    repeat split; assumption || reflexivity.
  - cbn [String.length all_digits string_forallb Nat.eqb negb andb].
    intros [Hc Hd]%andb_prop. exists false, c, t.
    destruct (isdigit_plain c Hc) as (Hsp & _).
    repeat split; try assumption.
    + rewrite append_cons. cbn [PyStr.lstrip]. now rewrite Hsp.
    + rewrite append_cons. cbn [PyStr.split_sign].
      destruct (Ascii.eqb_spec c "+"); [contradiction|].
      destruct (Ascii.eqb_spec c "-"); [contradiction|]. reflexivity.
Qed.

(** What [int] returns on a padded token: the value of the token, unless
    the token has more digits than the conversion limit allows. *)
Lemma int_padded_token (t l r : string) :
  int_token t = true -> all_space l = true -> all_space r = true ->
  PyStr.int (l +:+ t +:+ r) =
    if (PyStr.int_max_str_digits <? token_digits t)%nat
    then PyStr.digits_limit (token_digits t)
    else Ok (token_value t).
Proof.
  intros Ht Hl Hr.
  destruct (int_token_shape t Ht) as (negative & c & d & Hsign & Hc & Hd & Happ).
  destruct (Happ r) as [Hstrip Hsplit].
  unfold PyStr.int, token_digits, token_value.
  rewrite lstrip_app_space, Hstrip, Hsplit, Hsign by exact Hl.
  cbn [snd]. rewrite append_cons. cbn [PyStr.starts_with_underscore].
  destruct (isdigit_plain c Hc) as (_ & _ & _ & Hus & _). rewrite Hus.
  rewrite <- append_cons.
  rewrite scan_digits_digits
    by (cbn [all_digits string_forallb]; now rewrite Hc).
  rewrite scan_digits_space by exact Hr.
  rewrite Nat.add_0_r. cbn [String.length].
  rewrite lstrip_all_space by exact Hr. reflexivity.
Qed.

Lemma int_token_alone (t : string) :
  int_token t = true ->
  PyStr.int t =
    if (PyStr.int_max_str_digits <? token_digits t)%nat
    then PyStr.digits_limit (token_digits t)
    else Ok (token_value t).
Proof.
  intros Ht.
  rewrite <- (int_padded_token t EmptyString EmptyString Ht eq_refl eq_refl).
  change (EmptyString +:+ t +:+ EmptyString) with (t +:+ EmptyString).
  now rewrite append_nil_r.
Qed.

Lemma int_padding (t p : string) :
  int_token t = true -> padding t p -> PyStr.int p = PyStr.int t.
Proof.
  intros Ht [l r Hl Hr].
  now rewrite int_padded_token, int_token_alone.
Qed.

End Strings.

Section Splitting.

Lemma split_nonempty sep (s : string) : PyStr.split sep s <> [].
Proof.
  destruct s as [|c s]; [discriminate|]. cbn [PyStr.split].
  destruct (Ascii.eqb c sep); [discriminate|].
  destruct (PyStr.split sep s); discriminate.
Qed.

Lemma split_no_comma (t : string) :
  no_comma t = true -> PyStr.split "," t = [t].
Proof.
  induction t as [|c t IH]; [reflexivity|].
  cbn [no_comma string_forallb]. intros [Hc Ht]%andb_prop.
  apply negb_true_iff in Hc.
  cbn [PyStr.split]. rewrite Hc, (IH Ht). reflexivity.
Qed.

Lemma split_app_comma (t rest : string) :
  no_comma t = true ->
  PyStr.split "," (t +:+ String "," rest) = t :: PyStr.split "," rest.
Proof.
  induction t as [|c t IH]; [reflexivity|].
  cbn [no_comma string_forallb]. intros [Hc Ht]%andb_prop.
  apply negb_true_iff in Hc.
  rewrite append_cons. cbn [PyStr.split]. rewrite Hc, (IH Ht). reflexivity.
Qed.

(** Splitting undoes joining when no piece holds a comma. *)
Lemma split_join (ts : list string) :
  ts <> [] -> Forall (fun t => no_comma t = true) ts ->
  PyStr.split "," (PyStr.join "," ts) = ts.
Proof.
  induction ts as [|t ts IH]; [congruence|]. intros _ Hall.
  apply Forall_cons_iff in Hall as [Ht Hts].
  destruct ts as [|t' ts]; [now apply split_no_comma|].
  unfold PyStr.join in *. cbn [String.concat].
  change ("," +:+ ?x)%string with (String "," x).
  rewrite split_app_comma by exact Ht.
  f_equal. now apply IH.
Qed.

Lemma int_token_no_comma (t : string) :
  int_token t = true -> no_comma t = true.
Proof.
  intros Ht.
  destruct (int_token_shape t Ht) as (negative & c & d & Hsign & Hc & Hd & _).
  assert (Hdig : forall u, all_digits u = true -> no_comma u = true).
  { induction u as [|a u IH]; [reflexivity|].
    cbn [all_digits no_comma string_forallb]. intros [Ha Hu]%andb_prop.
    destruct (isdigit_plain a Ha) as (_ & _ & _ & _ & ->). now apply IH. }
  assert (Hcd : no_comma (String c d) = true)
    by (apply Hdig; cbn [all_digits string_forallb]; now rewrite Hc).
  destruct t as [|a t]; [reflexivity|]. cbn [PyStr.split_sign] in Hsign.
  destruct (Ascii.eqb_spec a "+") as [->|_];
    [|destruct (Ascii.eqb_spec a "-") as [->|_]];
    inversion Hsign; subst; try exact Hcd;
    cbn [no_comma string_forallb] in *; exact Hcd.
Qed.

Lemma all_space_no_comma (l : string) :
  all_space l = true -> no_comma l = true.
Proof.
  induction l as [|a l IH]; [reflexivity|].
  cbn [all_space no_comma string_forallb]. intros [Ha Hl]%andb_prop.
  destruct (isspace_plain a Ha) as (_ & _ & ->). now apply IH.
Qed.

Lemma padding_no_comma (t p : string) :
  int_token t = true -> padding t p -> no_comma p = true.
Proof.
  intros Ht [l r Hl Hr]. unfold no_comma.
  rewrite !string_forallb_app.
  fold (no_comma l). fold (no_comma t). fold (no_comma r).
  now rewrite (all_space_no_comma l), (all_space_no_comma r),
    (int_token_no_comma t).
Qed.

End Splitting.

Section Unpacking.

Lemma int_raises_ValueError (s : string) e :
  PyStr.int s = Err e -> exn_type e = ValueError.
Proof.
  unfold PyStr.int, PyStr.invalid_literal, PyStr.digits_limit, raise.
  destruct (PyStr.split_sign _) as [negative body].
  destruct (PyStr.starts_with_underscore body); [now intros [= <-]|].
  destruct (PyStr.scan_digits _ _ _ _) as [[[v n] rest]|]; [|now intros [= <-]].
  destruct n; [now intros [= <-]|].
  destruct (_ <? _)%nat; [now intros [= <-]|].
  destruct (PyStr.lstrip rest); [discriminate | now intros [= <-]].
Qed.

(** Unpacking succeeds only on exactly four items that all evaluate. *)
Lemma unpack4_ok {A} (it : list (result A)) a b c d :
  PyStr.unpack4 it = Ok (a, b, c, d) <-> it = [Ok a; Ok b; Ok c; Ok d].
Proof.
  split; [|intros ->; reflexivity].
  unfold PyStr.unpack4, raise.
  destruct it as [|[a'|] [|[b'|] [|[c'|] [|[d'|] [|[e'|] it]]]]];
    try discriminate.
  now intros [= -> -> -> ->].
Qed.

(** A failing unpack raises ValueError when the items themselves raise
    nothing else. *)
Lemma unpack4_raises_ValueError {A} (it : list (result A)) e :
  Forall (fun r => forall e', r = Err e' -> exn_type e' = ValueError) it ->
  PyStr.unpack4 it = Err e -> exn_type e = ValueError.
Proof.
  intros Hit. unfold PyStr.unpack4, raise.
  repeat (destruct it as [|[?|?] it];
          [try (now intros [= <-]) | apply Forall_cons_iff in Hit as [_ Hit]
           | apply Forall_cons_iff in Hit as [Hr _];
             intros [= <-]; now apply Hr]);
    try (cbn; now intros [= <-]).
Qed.

End Unpacking.

Section ModuleRaises.

Lemma validate_normalized_area_raises x1 y1 x2 y2 context e :
  Z.abs x1 < PyStr.str_limit -> Z.abs y1 < PyStr.str_limit ->
  Z.abs x2 < PyStr.str_limit -> Z.abs y2 < PyStr.str_limit ->
  validate_normalized_area x1 y1 x2 y2 context = Err e ->
  exn_type e = CoordinateError.
Proof.
  intros L1 L2 L3 L4. unfold validate_normalized_area.
  destruct (validate_normalized_coords x1 y1 _) as [[]|e1] eqn:H1;
    [|intros [= <-];
      exact (validate_normalized_coords_raises _ _ _ _ L1 L2 H1)].
  destruct (validate_normalized_coords x2 y2 _) as [[]|e2] eqn:H2;
    [|intros [= <-];
      exact (validate_normalized_coords_raises _ _ _ _ L3 L4 H2)].
  cbn [mbind result_bind Py.bind].
  rewrite (str_ok x1 L1), (str_ok x2 L3), (str_ok y1 L2), (str_ok y2 L4).
  destruct (x1 >? x2); [now intros [= <-]|].
  destruct (y1 >? y2); [now intros [= <-]|discriminate].
Qed.

Lemma validate_normalized_area_raises_ValueError x1 y1 x2 y2 context e :
  validate_normalized_area x1 y1 x2 y2 context = Err e ->
  isinstance e ValueError = true.
Proof.
  unfold validate_normalized_area.
  destruct (validate_normalized_coords x1 y1 _) as [[]|e1] eqn:H1;
    [|intros [= <-];
      exact (validate_normalized_coords_raises_ValueError _ _ _ _ H1)].
  destruct (validate_normalized_coords x2 y2 _) as [[]|e2] eqn:H2;
    [|intros [= <-];
      exact (validate_normalized_coords_raises_ValueError _ _ _ _ H2)].
  apply validate_normalized_coords_inv in H1 as [Hx1 Hy1].
  apply validate_normalized_coords_inv in H2 as [Hx2 Hy2].
  cbn [mbind result_bind Py.bind].
  rewrite (str_normalized x1), (str_normalized x2),
    (str_normalized y1), (str_normalized y2) by assumption.
  destruct (x1 >? x2); [now intros [= <-]|].
  destruct (y1 >? y2); [now intros [= <-]|discriminate].
Qed.

Lemma from_device_context_raises_ValueError device_context e :
  from_device_context device_context = Err e ->
  isinstance e ValueError = true.
Proof.
  destruct (from_device_context_cases device_context) as (Hok & Hbad & Hbig).
  cbv zeta in *.
  set (w := default 1080 _) in *. set (h := default 2400 _) in *.
  destruct (Z_le_gt_dec w 0) as [Cw|Cw];
    [|destruct (Z_le_gt_dec h 0) as [Ch|Ch]; [|rewrite Hok by lia; discriminate]];
    (destruct (Z_lt_le_dec (Z.abs w) PyStr.str_limit) as [Lw|Lw];
     [destruct (Z_lt_le_dec (Z.abs h) PyStr.str_limit) as [Lh|Lh]|]);
    try (rewrite Hbad by (assumption || lia); now intros [= <-]);
    rewrite Hbig by (lia || auto); now intros [= <-].
Qed.

End ModuleRaises.

(** C2, as stated, fails: a malformed bounds string is not reported as a
    CoordinateError.  The unpacking and the int parser raise the built-in
    ValueError, which an [except CoordinateError] clause does not catch. *)
Lemma bounds_to_normalized_raises_plain_ValueError :
  bounds_to_normalized "0,0,1080" (mkScreenSize 1080 2400) =
    raise ValueError "not enough values to unpack (expected 4, got 3)" /\
  bounds_to_normalized "0,0,wide,2400" (mkScreenSize 1080 2400) =
    raise ValueError "invalid literal for int() with base 10: 'wide'" /\
  isinstance (Raise ValueError "not enough values to unpack (expected 4, got 3)")
    CoordinateError = false /\
  ValueError <> CoordinateError.
Proof. vm_compute. repeat split; congruence. Qed.

(** C2 (amended).  CoordinateError is a specialization of the generic
    ValueError.  Every failure raised by the module's own checks
    (validate_normalized_coords, validate_normalized_area, ScreenSize
    construction, from_device_context) is caught as a ValueError, and is a
    CoordinateError whenever the integers involved have at most 4300
    decimal digits (for a larger number, formatting the message raises the
    built-in ValueError first).  A bounds string that does not split at
    commas into exactly four tokens accepted by int() makes
    bounds_to_normalized fail with the built-in ValueError of the unpacking
    or of the parse, which is not a CoordinateError. *)
Theorem bounds_to_normalized_parse_failure bounds_str screen_size :
  length (PyStr.split "," bounds_str) <> 4%nat \/
  Exists (fun tok => is_ok (PyStr.int tok) = false)
         (PyStr.split "," bounds_str) ->
  (exists e,
     bounds_to_normalized bounds_str screen_size = Err e /\
     exn_type e = ValueError /\
     isinstance e ValueError = true /\
     isinstance e CoordinateError = false) /\
  issubclass CoordinateError ValueError = true /\
  (forall x y context e,
     validate_normalized_coords x y context = Err e ->
     isinstance e ValueError = true /\
     (Z.abs x < PyStr.str_limit -> Z.abs y < PyStr.str_limit ->
      exn_type e = CoordinateError)) /\
  (forall x1 y1 x2 y2 context e,
     validate_normalized_area x1 y1 x2 y2 context = Err e ->
     isinstance e ValueError = true /\
     (Z.abs x1 < PyStr.str_limit -> Z.abs y1 < PyStr.str_limit ->
      Z.abs x2 < PyStr.str_limit -> Z.abs y2 < PyStr.str_limit ->
      exn_type e = CoordinateError)) /\
  (forall w h e,
     ScreenSize_new w h = Err e ->
     isinstance e ValueError = true /\
     (Z.abs w < PyStr.str_limit -> Z.abs h < PyStr.str_limit ->
      exn_type e = CoordinateError)) /\
  (forall (device_context : gmap string (gmap string Z)) e,
     from_device_context device_context = Err e ->
     isinstance e ValueError = true /\
     (Z.abs (default 1080
               (default ∅ (device_context !! "screen_bounds"%string)
                  !! "width"%string)) < PyStr.str_limit ->
      Z.abs (default 2400
               (default ∅ (device_context !! "screen_bounds"%string)
                  !! "height"%string)) < PyStr.str_limit ->
      exn_type e = CoordinateError)).
Proof.
  intros Hbad.
  split; [|split; [reflexivity|]; repeat split; intros;
           eauto using validate_normalized_coords_raises,
             validate_normalized_coords_raises_ValueError,
             validate_normalized_area_raises,
             validate_normalized_area_raises_ValueError,
             ScreenSize_new_raises, ScreenSize_new_raises_ValueError,
             from_device_context_raises,
             from_device_context_raises_ValueError].
  unfold bounds_to_normalized.
  destruct (PyStr.unpack4 _) as [[[[a b] c] d]|e] eqn:Hun.
  - exfalso. apply unpack4_ok in Hun.
    set (toks := PyStr.split "," bounds_str) in *.
    destruct Hbad as [Hlen|Hex].
    + apply Hlen. rewrite <- (length_map PyStr.int), Hun. reflexivity.
    + apply Exists_exists in Hex as (tok & Hin & Hfail).
      apply list_elem_of_In, (in_map PyStr.int) in Hin. rewrite Hun in Hin.
      cbn [In] in Hin.
      destruct Hin as [H|[H|[H|[H|[]]]]]; rewrite <- H in Hfail; discriminate.
  - exists e. split; [reflexivity|].
    assert (He : exn_type e = ValueError).
    { eapply unpack4_raises_ValueError; [|exact Hun].
      apply Forall_forall. intros r Hin%list_elem_of_In e' ->.
      apply in_map_iff in Hin as (tok & Htok & _).
      eapply int_raises_ValueError; eassumption. }
    unfold isinstance. rewrite He. repeat split.
Qed.

Lemma bounds_to_normalized_parse_failure_witness :
  exists e,
    bounds_to_normalized "10,20,30,40,50" (mkScreenSize 1080 2400) = Err e /\
    exn_type e = ValueError /\
    isinstance e ValueError = true /\
    isinstance e CoordinateError = false.
Proof.
  apply (bounds_to_normalized_parse_failure
           "10,20,30,40,50" (mkScreenSize 1080 2400)).
  left. vm_compute. congruence.
Defined.

(** C9.  bounds_to_normalized tolerates white space around each
    comma-separated token: for every bounds string of exactly four base-10,
    optionally signed, integer tokens, padding any token with leading or
    trailing white space yields the same result as the string with the
    bare tokens, hence the same successful result whenever that one
    succeeds; the integers handed to the conversion are the values of the
    bare tokens (for tokens within the digit limit of int()). *)
Theorem bounds_to_normalized_ignores_padding
    t1 t2 t3 t4 p1 p2 p3 p4 screen_size :
  int_token t1 = true -> int_token t2 = true ->
  int_token t3 = true -> int_token t4 = true ->
  padding t1 p1 -> padding t2 p2 -> padding t3 p3 -> padding t4 p4 ->
  bounds_to_normalized (PyStr.join "," [p1; p2; p3; p4]) screen_size =
    bounds_to_normalized (PyStr.join "," [t1; t2; t3; t4]) screen_size /\
  (forall r,
     bounds_to_normalized (PyStr.join "," [t1; t2; t3; t4]) screen_size = Ok r ->
     bounds_to_normalized (PyStr.join "," [p1; p2; p3; p4]) screen_size = Ok r) /\
  ((token_digits t1 <= PyStr.int_max_str_digits)%nat ->
   (token_digits t2 <= PyStr.int_max_str_digits)%nat ->
   (token_digits t3 <= PyStr.int_max_str_digits)%nat ->
   (token_digits t4 <= PyStr.int_max_str_digits)%nat ->
   bounds_to_normalized (PyStr.join "," [p1; p2; p3; p4]) screen_size =
     ('(norm_x1, norm_y1) ←
        absolute_to_normalized (token_value t1) (token_value t2) screen_size;
      '(norm_x2, norm_y2) ←
        absolute_to_normalized (token_value t3) (token_value t4) screen_size;
      Ok (norm_x1, norm_y1, norm_x2, norm_y2))).
Proof.
  intros T1 T2 T3 T4 P1 P2 P3 P4.
  assert (Heq :
    bounds_to_normalized (PyStr.join "," [p1; p2; p3; p4]) screen_size =
    bounds_to_normalized (PyStr.join "," [t1; t2; t3; t4]) screen_size).
  { unfold bounds_to_normalized.
    rewrite !split_join
      by (try discriminate; repeat constructor;
          eauto using padding_no_comma, int_token_no_comma).
    cbn [map].
    now rewrite (int_padding t1 p1), (int_padding t2 p2),
      (int_padding t3 p3), (int_padding t4 p4). }
  split; [exact Heq|]. split; [intros r Hr; now rewrite Heq|].
  intros L1 L2 L3 L4. rewrite Heq. unfold bounds_to_normalized.
  rewrite split_join
    by (try discriminate; repeat constructor; eauto using int_token_no_comma).
  cbn [map]. rewrite !int_token_alone by assumption.
  apply Nat.ltb_ge in L1, L2, L3, L4. rewrite L1, L2, L3, L4.
  reflexivity.
Qed.

Lemma bounds_to_normalized_ignores_padding_witness :
  bounds_to_normalized " 0,0 ,  +1080 ,2400" (mkScreenSize 1080 2400) =
    bounds_to_normalized "0,0,+1080,2400" (mkScreenSize 1080 2400).
Proof.
  refine (proj1 (bounds_to_normalized_ignores_padding
                   "0" "0" "+1080" "2400" " 0" "0 " "  +1080 " "2400"
                   (mkScreenSize 1080 2400)
                   eq_refl eq_refl eq_refl eq_refl _ _ _ _)).
  - exact (padding_intro "0" " " EmptyString eq_refl eq_refl).
  - exact (padding_intro "0" EmptyString " " eq_refl eq_refl).
  - exact (padding_intro "+1080" "  " " " eq_refl eq_refl).
  - exact (padding_intro "2400" EmptyString EmptyString eq_refl eq_refl).
Defined.

(** * Further properties of the module *)

(** ** Range validation in full *)

Section RangeChecks.

Lemma in_range_dec (x : Z) :
  {0 <= x <= NORMALIZED_RANGE} + {~ 0 <= x <= NORMALIZED_RANGE}.
Proof.
  destruct (Z_le_dec 0 x), (Z_le_dec x NORMALIZED_RANGE);
    (left; lia) || (right; lia).
Qed.

(** What the validator does with the pair, case by case. *)
Lemma validate_normalized_coords_cases x y context :
  (~ 0 <= x <= NORMALIZED_RANGE -> Z.abs x < PyStr.str_limit ->
     validate_normalized_coords x y context =
       raise CoordinateError
         (ctx_prefix context +:+ "X coordinate (" +:+ PyStr.decimal x
          +:+ ") out of valid range [0, " +:+ PyStr.decimal NORMALIZED_RANGE
          +:+ "]")) /\
  (~ 0 <= x <= NORMALIZED_RANGE -> PyStr.str_limit <= Z.abs x ->
     validate_normalized_coords x y context = PyStr.str_limit_exceeded) /\
  (0 <= x <= NORMALIZED_RANGE -> ~ 0 <= y <= NORMALIZED_RANGE ->
   Z.abs y < PyStr.str_limit ->
     validate_normalized_coords x y context =
       raise CoordinateError
         (ctx_prefix context +:+ "Y coordinate (" +:+ PyStr.decimal y
          +:+ ") out of valid range [0, " +:+ PyStr.decimal NORMALIZED_RANGE
          +:+ "]")) /\
  (0 <= x <= NORMALIZED_RANGE -> ~ 0 <= y <= NORMALIZED_RANGE ->
   PyStr.str_limit <= Z.abs y ->
     validate_normalized_coords x y context = PyStr.str_limit_exceeded).
Proof.
  unfold validate_normalized_coords.
  destruct (Z.leb_spec 0 x), (Z.leb_spec x NORMALIZED_RANGE); cbn [andb negb];
    try (repeat split; intros; try lia; format_int; reflexivity).
  destruct (Z.leb_spec 0 y), (Z.leb_spec y NORMALIZED_RANGE); cbn [andb negb];
    repeat split; intros; try lia; format_int; reflexivity.
Qed.

(** An out-of-range pair within the digit limit is refused with a
    CoordinateError whose message starts with the prefix built from the
    label. *)
Lemma validate_normalized_coords_fails x y context :
  ~ (0 <= x <= NORMALIZED_RANGE /\ 0 <= y <= NORMALIZED_RANGE) ->
  Z.abs x < PyStr.str_limit -> Z.abs y < PyStr.str_limit ->
  exists e,
    validate_normalized_coords x y context = Err e /\
    exn_type e = CoordinateError /\
    exists rest, exn_msg e = ctx_prefix context +:+ rest.
Proof.
  intros Hbad Lx Ly.
  destruct (validate_normalized_coords_cases x y context) as (Hx & _ & Hy & _).
  destruct (in_range_dec x) as [Cx|Cx].
  - rewrite Hy by (assumption || tauto).
    eexists; split; [reflexivity|]; split; [reflexivity|].
    eexists; reflexivity.
  - rewrite Hx by assumption.
    eexists; split; [reflexivity|]; split; [reflexivity|].
    eexists; reflexivity.
Qed.

(** An out-of-range pair is refused in every case. *)
Lemma validate_normalized_coords_refuses x y context :
  ~ (0 <= x <= NORMALIZED_RANGE /\ 0 <= y <= NORMALIZED_RANGE) ->
  exists e,
    validate_normalized_coords x y context = Err e /\
    isinstance e ValueError = true.
Proof.
  intros Hbad.
  destruct (validate_normalized_coords x y context) as [[]|e] eqn:Hv.
  - apply validate_normalized_coords_inv in Hv. tauto.
  - exists e. split; [reflexivity|].
    eapply validate_normalized_coords_raises_ValueError; exact Hv.
Qed.

Lemma validate_normalized_area_ok_inv x1 y1 x2 y2 context :
  validate_normalized_area x1 y1 x2 y2 context = Ok tt ->
  (0 <= x1 <= NORMALIZED_RANGE /\ 0 <= y1 <= NORMALIZED_RANGE) /\
  (0 <= x2 <= NORMALIZED_RANGE /\ 0 <= y2 <= NORMALIZED_RANGE) /\
  x1 <= x2 /\ y1 <= y2.
Proof.
  unfold validate_normalized_area.
  destruct (validate_normalized_coords x1 y1 _) as [[]|] eqn:H1;
    [|discriminate].
  destruct (validate_normalized_coords x2 y2 _) as [[]|] eqn:H2;
    [|discriminate].
  apply validate_normalized_coords_inv in H1, H2.
  destruct H1 as [Hx1 Hy1], H2 as [Hx2 Hy2].
  cbn [mbind result_bind Py.bind].
  rewrite (str_normalized x1), (str_normalized x2),
    (str_normalized y1), (str_normalized y2) by assumption.
  rewrite !Z.gtb_ltb.
  destruct (Z.ltb_spec x2 x1); [discriminate|].
  destruct (Z.ltb_spec y2 y1); [discriminate|]. intros _. lia.
Qed.

End RangeChecks.

(** X1.  validate_normalized_coords returns normally exactly when both
    coordinates lie in [0, 1000], whatever the label.  Otherwise it fails:
    for X out of range (also when Y is out of range too) it raises the
    CoordinateError that reports X, and for X in range the one that reports
    Y, each with the offending value and the valid range in the message;
    when the offending value has more than 4300 digits, formatting that
    message raises the ValueError of the int-to-text limit instead. *)
Theorem validate_normalized_coords_spec x y context :
  (validate_normalized_coords x y context = Ok tt <->
     0 <= x <= NORMALIZED_RANGE /\ 0 <= y <= NORMALIZED_RANGE) /\
  (~ 0 <= x <= NORMALIZED_RANGE -> Z.abs x < PyStr.str_limit ->
     validate_normalized_coords x y context =
       raise CoordinateError
         (ctx_prefix context +:+ "X coordinate (" +:+ PyStr.decimal x
          +:+ ") out of valid range [0, " +:+ PyStr.decimal NORMALIZED_RANGE
          +:+ "]")) /\
  (~ 0 <= x <= NORMALIZED_RANGE -> PyStr.str_limit <= Z.abs x ->
     validate_normalized_coords x y context = PyStr.str_limit_exceeded) /\
  (0 <= x <= NORMALIZED_RANGE -> ~ 0 <= y <= NORMALIZED_RANGE ->
   Z.abs y < PyStr.str_limit ->
     validate_normalized_coords x y context =
       raise CoordinateError
         (ctx_prefix context +:+ "Y coordinate (" +:+ PyStr.decimal y
          +:+ ") out of valid range [0, " +:+ PyStr.decimal NORMALIZED_RANGE
          +:+ "]")) /\
  (0 <= x <= NORMALIZED_RANGE -> ~ 0 <= y <= NORMALIZED_RANGE ->
   PyStr.str_limit <= Z.abs y ->
     validate_normalized_coords x y context = PyStr.str_limit_exceeded).
Proof.
  split; [split; [apply validate_normalized_coords_inv
                 | intros []; now apply validate_normalized_coords_ok]|].
  apply validate_normalized_coords_cases.
Qed.

Lemma validate_normalized_coords_spec_witness :
  validate_normalized_coords 1200 (-5) "swipe" =
    raise CoordinateError
      "swipe: X coordinate (1200) out of valid range [0, 1000]".
Proof.
  apply (proj1 (proj2 (validate_normalized_coords_spec 1200 (-5) "swipe")));
    [unfold NORMALIZED_RANGE; lia | reflexivity].
Defined.

(** X2.  validate_normalized_area, for arbitrary integers, returns normally
    exactly when all four coordinates lie in [0, 1000], x1 <= x2 and
    y1 <= y2.  The range of the top-left corner is checked first, then the
    range of the bottom-right corner, and only then the ordering: an
    out-of-range corner is reported as validate_normalized_coords reports
    it under the label extended with "top-left" or "bottom-right".  Every
    failure is caught as a ValueError, and is a CoordinateError whenever
    the four coordinates have at most 4300 digits. *)
Theorem validate_normalized_area_spec x1 y1 x2 y2 context :
  (validate_normalized_area x1 y1 x2 y2 context = Ok tt <->
     (0 <= x1 <= NORMALIZED_RANGE /\ 0 <= y1 <= NORMALIZED_RANGE) /\
     (0 <= x2 <= NORMALIZED_RANGE /\ 0 <= y2 <= NORMALIZED_RANGE) /\
     x1 <= x2 /\ y1 <= y2) /\
  (~ (0 <= x1 <= NORMALIZED_RANGE /\ 0 <= y1 <= NORMALIZED_RANGE) ->
     validate_normalized_area x1 y1 x2 y2 context =
       validate_normalized_coords x1 y1 (ctx_prefix context +:+ "top-left")) /\
  (0 <= x1 <= NORMALIZED_RANGE /\ 0 <= y1 <= NORMALIZED_RANGE ->
   ~ (0 <= x2 <= NORMALIZED_RANGE /\ 0 <= y2 <= NORMALIZED_RANGE) ->
     validate_normalized_area x1 y1 x2 y2 context =
       validate_normalized_coords x2 y2
         (ctx_prefix context +:+ "bottom-right")) /\
  (forall e, validate_normalized_area x1 y1 x2 y2 context = Err e ->
     isinstance e ValueError = true /\
     (Z.abs x1 < PyStr.str_limit -> Z.abs y1 < PyStr.str_limit ->
      Z.abs x2 < PyStr.str_limit -> Z.abs y2 < PyStr.str_limit ->
      exn_type e = CoordinateError)).
Proof.
  split; [|split; [|split]].
  - split.
    + apply validate_normalized_area_ok_inv.
    + intros ([Hx1 Hy1] & [Hx2 Hy2] & Hx & Hy).
      now apply validate_normalized_area_ok.
  - intros Hbad. unfold validate_normalized_area.
    destruct (validate_normalized_coords_refuses x1 y1
                (ctx_prefix context +:+ "top-left") Hbad) as (e & -> & _).
    reflexivity.
  - intros [Hx1 Hy1] Hbad. unfold validate_normalized_area.
    rewrite (validate_normalized_coords_ok x1 y1) by assumption.
    destruct (validate_normalized_coords_refuses x2 y2
                (ctx_prefix context +:+ "bottom-right") Hbad) as (e & -> & _).
    reflexivity.
  - intros e He. split.
    + eapply validate_normalized_area_raises_ValueError; exact He.
    + intros L1 L2 L3 L4.
      exact (validate_normalized_area_raises _ _ _ _ _ _ L1 L2 L3 L4 He).
Qed.

Lemma validate_normalized_area_spec_witness :
  validate_normalized_area 10 20 1001 30 "drag" =
    validate_normalized_coords 1001 30 "drag: bottom-right".
Proof.
  apply (proj1 (proj2 (proj2
           (validate_normalized_area_spec 10 20 1001 30 "drag"))));
    unfold NORMALIZED_RANGE; lia.
Defined.

(** ** The conversions on screens where the division is exact *)

Section ExactScreens.

Variable screen_size : ScreenSize.
Hypothesis width_pos : 0 < width screen_size.
Hypothesis height_pos : 0 < height screen_size.
Hypothesis width_exact : NORMALIZED_RANGE * width screen_size < 2 ^ 53.
Hypothesis height_exact : NORMALIZED_RANGE * height screen_size < 2 ^ 53.

Lemma normalized_to_absolute_ok_inv norm_x norm_y abs_x abs_y :
  normalized_to_absolute norm_x norm_y screen_size = Ok (abs_x, abs_y) ->
  (0 <= norm_x <= NORMALIZED_RANGE /\ 0 <= norm_y <= NORMALIZED_RANGE) /\
  abs_x = norm_x * width screen_size / NORMALIZED_RANGE /\
  abs_y = norm_y * height screen_size / NORMALIZED_RANGE.
Proof.
  intros Hok.
  assert (Hr : 0 <= norm_x <= NORMALIZED_RANGE /\
               0 <= norm_y <= NORMALIZED_RANGE).
  { unfold normalized_to_absolute in Hok.
    destruct (validate_normalized_coords norm_x norm_y _) as [[]|] eqn:Hv;
      [|discriminate].
    now apply validate_normalized_coords_inv in Hv. }
  split; [exact Hr|]. destruct Hr as [Hx Hy].
  rewrite normalized_to_absolute_floor in Hok by assumption.
  now injection Hok as <- <-.
Qed.

(** The closed form of absolute_to_normalized, one axis at a time. *)
Lemma clamp_quot_cases a d :
  0 < d ->
  let n := Z.max 0 (Z.min NORMALIZED_RANGE (Z.quot (a * NORMALIZED_RANGE) d)) in
  0 <= n <= NORMALIZED_RANGE /\
  (a <= 0 -> n = 0) /\
  (d <= a -> n = NORMALIZED_RANGE) /\
  (0 <= a <= d -> n = a * NORMALIZED_RANGE / d).
Proof.
  intros Hd. unfold NORMALIZED_RANGE. cbv zeta.
  split; [lia|]. split; [|split].
  - intros Ha.
    assert (Z.quot (a * 1000) d <= 0); [|lia].
    replace (a * 1000) with (- (- a * 1000)) by lia.
    rewrite Z.quot_opp_l, Z.quot_div_nonneg by lia.
    assert (0 <= - a * 1000 / d) by (apply Z.div_pos; lia). lia.
  - intros Ha. rewrite Z.quot_div_nonneg by lia.
    assert (1000 <= a * 1000 / d) by (apply Z.div_le_lower_bound; lia). lia.
  - intros Ha. rewrite Z.quot_div_nonneg by lia.
    assert (0 <= a * 1000 / d) by (apply Z.div_pos; lia).
    assert (a * 1000 / d <= 1000) by (apply Z.div_le_upper_bound; nia). lia.
Qed.

Lemma clamp_quot_mono a a' d :
  0 < d -> a <= a' ->
  Z.max 0 (Z.min NORMALIZED_RANGE (Z.quot (a * NORMALIZED_RANGE) d)) <=
  Z.max 0 (Z.min NORMALIZED_RANGE (Z.quot (a' * NORMALIZED_RANGE) d)).
Proof.
  intros Hd Ha. unfold NORMALIZED_RANGE.
  assert (Z.quot (a * 1000) d <= Z.quot (a' * 1000) d)
    by (apply Z.quot_le_mono; lia).
  lia.
Qed.

End ExactScreens.

(** X3.  On a screen with positive dimensions whose products with 1000 stay
    below [2^53], normalized_to_absolute maps the normalized origin to pixel
    (0, 0) and the normalized corner (1000, 1000) to (width, height); every
    other in-range coordinate lands strictly inside: the returned x equals
    the width only for norm_x = 1000, and likewise for y. *)
Theorem normalized_to_absolute_corners screen_size :
  0 < width screen_size -> 0 < height screen_size ->
  NORMALIZED_RANGE * width screen_size < 2 ^ 53 ->
  NORMALIZED_RANGE * height screen_size < 2 ^ 53 ->
  normalized_to_absolute 0 0 screen_size = Ok (0, 0) /\
  normalized_to_absolute NORMALIZED_RANGE NORMALIZED_RANGE screen_size =
    Ok (width screen_size, height screen_size) /\
  (forall norm_x norm_y abs_x abs_y,
     normalized_to_absolute norm_x norm_y screen_size = Ok (abs_x, abs_y) ->
     (abs_x = width screen_size <-> norm_x = NORMALIZED_RANGE) /\
     (abs_y = height screen_size <-> norm_y = NORMALIZED_RANGE)).
Proof.
  intros HW0 HH0 HW HH. split; [|split].
  - rewrite normalized_to_absolute_floor
      by (assumption || unfold NORMALIZED_RANGE; lia).
    reflexivity.
  - rewrite normalized_to_absolute_floor
      by (assumption || unfold NORMALIZED_RANGE; lia).
    unfold NORMALIZED_RANGE.
    now rewrite !(Z.mul_comm 1000), !Z.div_mul by lia.
  - intros norm_x norm_y abs_x abs_y Hok.
    apply normalized_to_absolute_ok_inv in Hok as ([Hx Hy] & -> & ->);
      try assumption.
    unfold NORMALIZED_RANGE in *. split; split.
    + intros Heq. destruct (Z.eq_dec norm_x 1000) as [|Hne]; [assumption|].
      assert (norm_x * width screen_size / 1000 < width screen_size)
        by (apply Z.div_lt_upper_bound; nia).
      lia.
    + intros ->. now rewrite (Z.mul_comm 1000), Z.div_mul by lia.
    + intros Heq. destruct (Z.eq_dec norm_y 1000) as [|Hne]; [assumption|].
      assert (norm_y * height screen_size / 1000 < height screen_size)
        by (apply Z.div_lt_upper_bound; nia).
      lia.
    + intros ->. now rewrite (Z.mul_comm 1000), Z.div_mul by lia.
Qed.

Lemma normalized_to_absolute_corners_witness :
  normalized_to_absolute NORMALIZED_RANGE NORMALIZED_RANGE
    (mkScreenSize 720 1280) = Ok (720, 1280).
Proof.
  apply (normalized_to_absolute_corners (mkScreenSize 720 1280));
    cbn [width height]; unfold NORMALIZED_RANGE; try lia; reflexivity.
Defined.

(** X4.  On such a screen normalized_to_absolute is monotone on each axis:
    for in-range pairs with x <= x' and y <= y' both calls succeed and the
    pixel of the larger normalized coordinate is never the smaller one. *)
Theorem normalized_to_absolute_monotone screen_size x y x' y' :
  0 < width screen_size -> 0 < height screen_size ->
  NORMALIZED_RANGE * width screen_size < 2 ^ 53 ->
  NORMALIZED_RANGE * height screen_size < 2 ^ 53 ->
  0 <= x -> x <= x' -> x' <= NORMALIZED_RANGE ->
  0 <= y -> y <= y' -> y' <= NORMALIZED_RANGE ->
  exists abs_x abs_y abs_x' abs_y',
    normalized_to_absolute x y screen_size = Ok (abs_x, abs_y) /\
    normalized_to_absolute x' y' screen_size = Ok (abs_x', abs_y') /\
    abs_x <= abs_x' /\ abs_y <= abs_y'.
Proof.
  intros HW0 HH0 HW HH Hx0 Hx Hx1 Hy0 Hy Hy1.
  rewrite !normalized_to_absolute_floor by (assumption || lia).
  do 4 eexists. split; [reflexivity|]. split; [reflexivity|].
  unfold NORMALIZED_RANGE.
  split; apply Z.div_le_mono; nia.
Qed.

Lemma normalized_to_absolute_monotone_witness :
  exists abs_x abs_y abs_x' abs_y',
    normalized_to_absolute 100 900 (mkScreenSize 1080 2400)
      = Ok (abs_x, abs_y) /\
    normalized_to_absolute 101 900 (mkScreenSize 1080 2400)
      = Ok (abs_x', abs_y') /\
    abs_x <= abs_x' /\ abs_y <= abs_y'.
Proof.
  apply (normalized_to_absolute_monotone
           (mkScreenSize 1080 2400) 100 900 101 900);
    cbn [width height]; unfold NORMALIZED_RANGE; try lia; reflexivity.
Defined.

(** X5.  On a screen with positive dimensions below [2^53], for pixel
    values whose products with 1000 are below [2^53] in magnitude,
    absolute_to_normalized succeeds and is given axis by axis by: 0 for a
    pixel at or before the origin, 1000 for a pixel at or beyond the
    dimension, and floor(pixel * 1000 / dimension) in between. *)
Theorem absolute_to_normalized_piecewise screen_size abs_x abs_y :
  0 < width screen_size < 2 ^ 53 -> 0 < height screen_size < 2 ^ 53 ->
  Z.abs (abs_x * NORMALIZED_RANGE) < 2 ^ 53 ->
  Z.abs (abs_y * NORMALIZED_RANGE) < 2 ^ 53 ->
  exists norm_x norm_y,
    absolute_to_normalized abs_x abs_y screen_size = Ok (norm_x, norm_y) /\
    (abs_x <= 0 -> norm_x = 0) /\
    (width screen_size <= abs_x -> norm_x = NORMALIZED_RANGE) /\
    (0 <= abs_x <= width screen_size ->
       norm_x = abs_x * NORMALIZED_RANGE / width screen_size) /\
    (abs_y <= 0 -> norm_y = 0) /\
    (height screen_size <= abs_y -> norm_y = NORMALIZED_RANGE) /\
    (0 <= abs_y <= height screen_size ->
       norm_y = abs_y * NORMALIZED_RANGE / height screen_size).
Proof.
  intros [HW0 HW] [HH0 HH] Hx Hy.
  rewrite absolute_to_normalized_quot by assumption.
  destruct (clamp_quot_cases abs_x (width screen_size) HW0)
    as (_ & Hx1 & Hx2 & Hx3).
  destruct (clamp_quot_cases abs_y (height screen_size) HH0)
    as (_ & Hy1 & Hy2 & Hy3).
  do 2 eexists. split; [reflexivity|]. repeat split; assumption.
Qed.

Lemma absolute_to_normalized_piecewise_witness :
  exists norm_x norm_y,
    absolute_to_normalized (-40) 600 (mkScreenSize 1080 2400)
      = Ok (norm_x, norm_y) /\
    norm_x = 0 /\ norm_y = 250.
Proof.
  destruct (absolute_to_normalized_piecewise
              (mkScreenSize 1080 2400) (-40) 600)
    as (norm_x & norm_y & Hok & Hx0 & _ & _ & _ & _ & Hy);
    cbn [width height] in *; unfold NORMALIZED_RANGE in *;
    try lia; try (split; reflexivity).
  exists norm_x, norm_y. split; [exact Hok|]. split; [apply Hx0|apply Hy]; lia.
Defined.

(** X6.  Under the same bounds absolute_to_normalized is monotone on each
    axis: a pixel further right (down) never gets a smaller normalized
    coordinate. *)
Theorem absolute_to_normalized_monotone
    screen_size abs_x abs_y abs_x' abs_y' :
  0 < width screen_size < 2 ^ 53 -> 0 < height screen_size < 2 ^ 53 ->
  Z.abs (abs_x * NORMALIZED_RANGE) < 2 ^ 53 ->
  Z.abs (abs_y * NORMALIZED_RANGE) < 2 ^ 53 ->
  Z.abs (abs_x' * NORMALIZED_RANGE) < 2 ^ 53 ->
  Z.abs (abs_y' * NORMALIZED_RANGE) < 2 ^ 53 ->
  abs_x <= abs_x' -> abs_y <= abs_y' ->
  exists norm_x norm_y norm_x' norm_y',
    absolute_to_normalized abs_x abs_y screen_size = Ok (norm_x, norm_y) /\
    absolute_to_normalized abs_x' abs_y' screen_size = Ok (norm_x', norm_y') /\
    norm_x <= norm_x' /\ norm_y <= norm_y'.
Proof.
  intros [HW0 HW] [HH0 HH] Hx Hy Hx' Hy' Hlex Hley.
  rewrite !absolute_to_normalized_quot by assumption.
  do 4 eexists. split; [reflexivity|]. split; [reflexivity|].
  split; apply clamp_quot_mono; assumption.
Qed.

Lemma absolute_to_normalized_monotone_witness :
  exists norm_x norm_y norm_x' norm_y',
    absolute_to_normalized 100 (-3) (mkScreenSize 1080 2400)
      = Ok (norm_x, norm_y) /\
    absolute_to_normalized 101 5000 (mkScreenSize 1080 2400)
      = Ok (norm_x', norm_y') /\
    norm_x <= norm_x' /\ norm_y <= norm_y'.
Proof.
  apply (absolute_to_normalized_monotone
           (mkScreenSize 1080 2400) 100 (-3) 101 5000);
    cbn [width height]; unfold NORMALIZED_RANGE; try lia;
    split; reflexivity.
Defined.

(** X7.  Round trip from pixels: on a screen with positive dimensions whose
    products with 1000 stay below [2^53], a pixel inside the screen
    (0 <= abs_x <= width, 0 <= abs_y <= height) converted to normalized
    coordinates and back never moves right or down, and moves left (up) by
    less than one normalized cell plus one pixel:
    (abs_x - back_x) * 1000 < width + 1000, likewise for y. *)
Theorem absolute_roundtrip_bound screen_size abs_x abs_y :
  0 < width screen_size -> 0 < height screen_size ->
  NORMALIZED_RANGE * width screen_size < 2 ^ 53 ->
  NORMALIZED_RANGE * height screen_size < 2 ^ 53 ->
  0 <= abs_x <= width screen_size -> 0 <= abs_y <= height screen_size ->
  exists norm_x norm_y back_x back_y,
    absolute_to_normalized abs_x abs_y screen_size = Ok (norm_x, norm_y) /\
    normalized_to_absolute norm_x norm_y screen_size = Ok (back_x, back_y) /\
    back_x <= abs_x /\
    (abs_x - back_x) * NORMALIZED_RANGE < width screen_size + NORMALIZED_RANGE /\
    back_y <= abs_y /\
    (abs_y - back_y) * NORMALIZED_RANGE < height screen_size + NORMALIZED_RANGE.
Proof.
  intros HW0 HH0 HW HH Hx Hy.
  rewrite absolute_to_normalized_quot
    by (assumption || unfold NORMALIZED_RANGE in *; lia).
  destruct (clamp_quot_cases abs_x (width screen_size) HW0)
    as (Hnx & _ & _ & Hx3).
  destruct (clamp_quot_cases abs_y (height screen_size) HH0)
    as (Hny & _ & _ & Hy3).
  cbv zeta in *. specialize (Hx3 Hx). specialize (Hy3 Hy).
  set (norm_x := Z.max 0 (Z.min NORMALIZED_RANGE
                   (Z.quot (abs_x * NORMALIZED_RANGE) (width screen_size))))
    in *.
  set (norm_y := Z.max 0 (Z.min NORMALIZED_RANGE
                   (Z.quot (abs_y * NORMALIZED_RANGE) (height screen_size))))
    in *.
  exists norm_x, norm_y. do 2 eexists.
  split; [reflexivity|].
  split; [apply normalized_to_absolute_floor; assumption|].
  unfold NORMALIZED_RANGE in *.
  set (W := width screen_size) in *. set (H := height screen_size) in *.
  pose proof (Z.div_mod (abs_x * 1000) W ltac:(lia)) as Dx.
  pose proof (Z.mod_pos_bound (abs_x * 1000) W HW0) as Rx.
  pose proof (Z.div_mod (abs_y * 1000) H ltac:(lia)) as Dy.
  pose proof (Z.mod_pos_bound (abs_y * 1000) H HH0) as Ry.
  rewrite <- Hx3 in Dx. rewrite <- Hy3 in Dy.
  pose proof (Z.div_mod (norm_x * W) 1000 ltac:(lia)) as Ex.
  pose proof (Z.mod_pos_bound (norm_x * W) 1000 ltac:(lia)) as Sx.
  pose proof (Z.div_mod (norm_y * H) 1000 ltac:(lia)) as Ey.
  pose proof (Z.mod_pos_bound (norm_y * H) 1000 ltac:(lia)) as Sy.
  repeat split; nia.
Qed.

Lemma absolute_roundtrip_bound_witness :
  exists norm_x norm_y back_x back_y,
    absolute_to_normalized 541 1199 (mkScreenSize 1080 2400)
      = Ok (norm_x, norm_y) /\
    normalized_to_absolute norm_x norm_y (mkScreenSize 1080 2400)
      = Ok (back_x, back_y) /\
    back_x <= 541 /\
    (541 - back_x) * NORMALIZED_RANGE < 1080 + NORMALIZED_RANGE /\
    back_y <= 1199 /\
    (1199 - back_y) * NORMALIZED_RANGE < 2400 + NORMALIZED_RANGE.
Proof.
  apply (absolute_roundtrip_bound (mkScreenSize 1080 2400) 541 1199);
    cbn [width height]; unfold NORMALIZED_RANGE; try lia; reflexivity.
Defined.

(** ** Construction of ScreenSize in full *)

(** X8.  The constructor ScreenSize(width=w, height=h) returns an instance
    exactly when w > 0 and h > 0, and the instance then holds w and h
    unchanged.  Otherwise it fails: it raises the CoordinateError that
    names the width when the width is not positive (also when the height
    is not positive either) and the one that names the height only when
    the width is positive; when the dimension to be named has more than
    4300 digits, formatting the message raises the ValueError of the
    int-to-text limit instead. *)
Theorem ScreenSize_new_spec w h :
  (forall s, ScreenSize_new w h = Ok s <->
             0 < w /\ 0 < h /\ s = mkScreenSize w h) /\
  (w <= 0 -> Z.abs w < PyStr.str_limit ->
     ScreenSize_new w h =
       raise CoordinateError
         ("Screen width must be positive, got " +:+ PyStr.decimal w)) /\
  (w <= 0 -> PyStr.str_limit <= Z.abs w ->
     ScreenSize_new w h = PyStr.str_limit_exceeded) /\
  (0 < w -> h <= 0 -> Z.abs h < PyStr.str_limit ->
     ScreenSize_new w h =
       raise CoordinateError
         ("Screen height must be positive, got " +:+ PyStr.decimal h)) /\
  (0 < w -> h <= 0 -> PyStr.str_limit <= Z.abs h ->
     ScreenSize_new w h = PyStr.str_limit_exceeded).
Proof.
  destruct (ScreenSize_new_cases w h) as (Hok & Hw & Hw' & Hh & Hh').
  split; [|repeat split; assumption].
  intros s. split.
  - intros Hs.
    destruct (Z_le_gt_dec w 0) as [Cw|Cw].
    + destruct (Z_lt_le_dec (Z.abs w) PyStr.str_limit) as [L|L];
        [rewrite Hw in Hs by assumption | rewrite Hw' in Hs by assumption];
        discriminate.
    + destruct (Z_le_gt_dec h 0) as [Ch|Ch].
      * destruct (Z_lt_le_dec (Z.abs h) PyStr.str_limit) as [L|L];
          [rewrite Hh in Hs by (assumption || lia)
          | rewrite Hh' in Hs by (assumption || lia)];
          discriminate.
      * rewrite Hok in Hs by lia. injection Hs as <-.
        repeat split; lia.
  - intros (Pw & Ph & ->). now apply Hok.
Qed.

Lemma ScreenSize_new_spec_witness :
  ScreenSize_new 1080 0 =
    raise CoordinateError "Screen height must be positive, got 0".
Proof.
  apply (proj1 (proj2 (proj2 (proj2 (ScreenSize_new_spec 1080 0)))));
    try lia; reflexivity.
Defined.

(** X9.  from_device_context resolves the width as
    screen_bounds["width"] (1080 when screen_bounds or the key is missing)
    and the height likewise (2400).  It returns a ScreenSize holding the
    resolved pair exactly when both are positive; every ScreenSize it
    returns has positive width and height.  When a resolved dimension is
    not positive it fails with its own CoordinateError, whose message
    shows the resolved pair (the constructor's messages never surface
    through this path), or, when one of the two resolved numbers has more
    than 4300 digits, with the ValueError raised by formatting that
    message. *)
Theorem from_device_context_spec
    (device_context : gmap string (gmap string Z)) (w h : Z) :
  w = default 1080
        (default ∅ (device_context !! "screen_bounds"%string)
           !! "width"%string) ->
  h = default 2400
        (default ∅ (device_context !! "screen_bounds"%string)
           !! "height"%string) ->
  (0 < w -> 0 < h ->
     from_device_context device_context = Ok (mkScreenSize w h)) /\
  (w <= 0 \/ h <= 0 ->
   Z.abs w < PyStr.str_limit -> Z.abs h < PyStr.str_limit ->
     from_device_context device_context =
       raise CoordinateError
         ("Invalid screen dimensions: " +:+ PyStr.decimal w +:+ "x"
          +:+ PyStr.decimal h +:+ ". "
          +:+ "Both width and height must be positive.")) /\
  (w <= 0 \/ h <= 0 ->
   PyStr.str_limit <= Z.abs w \/ PyStr.str_limit <= Z.abs h ->
     from_device_context device_context = PyStr.str_limit_exceeded) /\
  (forall s, from_device_context device_context = Ok s ->
     s = mkScreenSize w h /\ 0 < width s /\ 0 < height s).
Proof.
  intros -> ->.
  destruct (from_device_context_cases device_context) as (Hok & Hbad & Hbig).
  cbv zeta in *.
  set (w := default 1080 _) in *. set (h := default 2400 _) in *.
  split; [exact Hok|]. split; [exact Hbad|]. split; [exact Hbig|].
  intros s Hs.
  destruct (Z_le_gt_dec w 0) as [Cw|Cw];
    [|destruct (Z_le_gt_dec h 0) as [Ch|Ch]].
  3: { rewrite Hok in Hs by lia. injection Hs as <-.
       cbn [width height]. repeat split; lia. }
  all: exfalso;
    destruct (Z_lt_le_dec (Z.abs w) PyStr.str_limit) as [Lw|Lw];
    [destruct (Z_lt_le_dec (Z.abs h) PyStr.str_limit) as [Lh|Lh]|];
    try (rewrite Hbad in Hs by (assumption || lia); discriminate);
    rewrite Hbig in Hs by (lia || auto); discriminate.
Qed.

Lemma from_device_context_spec_witness :
  from_device_context
    {[ "screen_bounds"%string := {[ "width"%string := -720 ]} ]} =
    raise CoordinateError
      "Invalid screen dimensions: -720x2400. Both width and height must be positive.".
Proof.
  refine (proj1 (proj2 (from_device_context_spec
                          {[ "screen_bounds"%string :=
                               {[ "width"%string := -720 ]} ]}
                          (-720) 2400 _ _)) _ _ _);
    [vm_compute; reflexivity | vm_compute; reflexivity | left; lia
    | reflexivity | reflexivity].
Defined.

(** X10.  from_device_context reads nothing but the width and height
    entries of screen_bounds: adding or changing any other key of the
    device context, or any other key inside screen_bounds, leaves its
    result unchanged, and an empty screen_bounds gives the same result as
    an absent one, the default 1080 x 2400. *)
Theorem from_device_context_reads_only_bounds
    (device_context : gmap string (gmap string Z))
    (screen_bounds other : gmap string Z) (k : string) (v : Z) :
  (k <> "screen_bounds"%string ->
     from_device_context (<[k := other]> device_context) =
     from_device_context device_context) /\
  (k <> "width"%string -> k <> "height"%string ->
     from_device_context
       (<["screen_bounds"%string := <[k := v]> screen_bounds]> device_context) =
     from_device_context
       (<["screen_bounds"%string := screen_bounds]> device_context)) /\
  from_device_context (<["screen_bounds"%string := ∅]> device_context) =
    Ok (mkScreenSize 1080 2400) /\
  from_device_context (delete "screen_bounds"%string device_context) =
    Ok (mkScreenSize 1080 2400).
Proof.
  split; [|split; [|split]].
  - intros Hk. unfold from_device_context.
    now rewrite lookup_insert_ne by exact Hk.
  - intros Hw Hh. unfold from_device_context.
    rewrite !lookup_insert_eq. cbn [default from_option]. unfold id.
    now rewrite !lookup_insert_ne by assumption.
  - unfold from_device_context. rewrite lookup_insert_eq. reflexivity.
  - unfold from_device_context. rewrite lookup_delete_eq. reflexivity.
Qed.

Lemma from_device_context_reads_only_bounds_witness :
  from_device_context
    (<["screen_bounds"%string :=
         <["density"%string := 440]> {[ "width"%string := 720 ]}]> ∅) =
  from_device_context
    (<["screen_bounds"%string := {[ "width"%string := 720 ]}]> ∅).
Proof.
  apply (proj1 (proj2 (from_device_context_reads_only_bounds
                         ∅ {[ "width"%string := 720 ]} ∅
                         "density" 440)));
    discriminate.
Defined.

(** ** Area centres *)

Lemma midpoint_between (a b : Z) :
  a <= b -> a <= (a + b) / 2 <= b.
Proof.
  intros Hab.
  pose proof (Z.div_mod (a + b) 2 ltac:(lia)).
  pose proof (Z.mod_pos_bound (a + b) 2 ltac:(lia)).
  lia.
Qed.

(** X11.  On a screen with positive dimensions whose products with 1000
    stay below [2^53], the centre returned by normalized_area_to_center for
    a valid area lies between the pixels of the two corners, as
    normalized_to_absolute gives them, on both axes; it is therefore on
    the screen. *)
Theorem normalized_area_to_center_between screen_size x1 y1 x2 y2 :
  0 < width screen_size -> 0 < height screen_size ->
  NORMALIZED_RANGE * width screen_size < 2 ^ 53 ->
  NORMALIZED_RANGE * height screen_size < 2 ^ 53 ->
  0 <= x1 -> x1 <= x2 -> x2 <= NORMALIZED_RANGE ->
  0 <= y1 -> y1 <= y2 -> y2 <= NORMALIZED_RANGE ->
  exists abs_x1 abs_y1 abs_x2 abs_y2 center_x center_y,
    normalized_to_absolute x1 y1 screen_size = Ok (abs_x1, abs_y1) /\
    normalized_to_absolute x2 y2 screen_size = Ok (abs_x2, abs_y2) /\
    normalized_area_to_center x1 y1 x2 y2 screen_size
      = Ok (center_x, center_y) /\
    abs_x1 <= center_x <= abs_x2 /\ abs_y1 <= center_y <= abs_y2 /\
    0 <= center_x <= width screen_size /\
    0 <= center_y <= height screen_size.
Proof.
  intros HW0 HH0 HW HH Hx0 Hx Hx1 Hy0 Hy Hy1.
  unfold normalized_area_to_center.
  rewrite validate_normalized_area_ok by lia.
  change (Ok tt ≫= _) with
    (normalized_to_absolute ((x1 + x2) / 2) ((y1 + y2) / 2) screen_size).
  destruct (midpoint_between x1 x2 Hx) as [Hmx1 Hmx2].
  destruct (midpoint_between y1 y2 Hy) as [Hmy1 Hmy2].
  set (mx := (x1 + x2) / 2) in *. set (my := (y1 + y2) / 2) in *.
  rewrite !normalized_to_absolute_floor by (assumption || lia).
  do 6 eexists. do 3 (split; [reflexivity|]).
  unfold NORMALIZED_RANGE in *.
  set (W := width screen_size) in *. set (H := height screen_size) in *.
  assert (x1 * W <= mx * W <= x2 * W) by nia.
  assert (y1 * H <= my * H <= y2 * H) by nia.
  assert (0 <= mx * W <= 1000 * W) by nia.
  assert (0 <= my * H <= 1000 * H) by nia.
  repeat split;
    first [ apply Z.div_le_mono; lia
          | apply Z.div_pos; lia
          | apply Z.div_le_upper_bound; lia ].
Qed.

Lemma normalized_area_to_center_between_witness :
  exists abs_x1 abs_y1 abs_x2 abs_y2 center_x center_y,
    normalized_to_absolute 100 200 (mkScreenSize 1080 2400)
      = Ok (abs_x1, abs_y1) /\
    normalized_to_absolute 301 200 (mkScreenSize 1080 2400)
      = Ok (abs_x2, abs_y2) /\
    normalized_area_to_center 100 200 301 200 (mkScreenSize 1080 2400)
      = Ok (center_x, center_y) /\
    abs_x1 <= center_x <= abs_x2 /\ abs_y1 <= center_y <= abs_y2 /\
    0 <= center_x <= 1080 /\ 0 <= center_y <= 2400.
Proof.
  apply (normalized_area_to_center_between
           (mkScreenSize 1080 2400) 100 200 301 200);
    cbn [width height]; unfold NORMALIZED_RANGE; try lia; reflexivity.
Defined.

(** The label under which normalized_area_to_center validates shows at
    the start of every CoordinateError it lets through. *)
Lemma validate_normalized_area_labelled x1 y1 x2 y2 e :
  Z.abs x1 < PyStr.str_limit -> Z.abs y1 < PyStr.str_limit ->
  Z.abs x2 < PyStr.str_limit -> Z.abs y2 < PyStr.str_limit ->
  validate_normalized_area x1 y1 x2 y2 "normalized_area_to_center" = Err e ->
  exists rest, exn_msg e = "normalized_area_to_center: " +:+ rest.
Proof.
  intros L1 L2 L3 L4. unfold validate_normalized_area.
  destruct (in_range_dec x1) as [Hx1|Hx1];
    [destruct (in_range_dec y1) as [Hy1|Hy1]|].
  2,3: destruct (validate_normalized_coords_fails x1 y1
         (ctx_prefix "normalized_area_to_center" +:+ "top-left")
         ltac:(tauto) L1 L2) as (e1 & -> & _ & rest & Hmsg);
       intros [= <-]; rewrite Hmsg; eexists; reflexivity.
  rewrite (validate_normalized_coords_ok x1 y1) by assumption.
  destruct (in_range_dec x2) as [Hx2|Hx2];
    [destruct (in_range_dec y2) as [Hy2|Hy2]|].
  2,3: destruct (validate_normalized_coords_fails x2 y2
         (ctx_prefix "normalized_area_to_center" +:+ "bottom-right")
         ltac:(tauto) L3 L4) as (e2 & -> & _ & rest & Hmsg);
       intros [= <-]; rewrite Hmsg; eexists; reflexivity.
  rewrite (validate_normalized_coords_ok x2 y2) by assumption.
  cbn [mbind result_bind Py.bind].
  rewrite (str_ok x1 L1), (str_ok x2 L3), (str_ok y1 L2), (str_ok y2 L4).
  destruct (x1 >? x2); [intros [= <-]; eexists; reflexivity|].
  destruct (y1 >? y2); [intros [= <-]; eexists; reflexivity|discriminate].
Qed.

(** X12.  On such a screen normalized_area_to_center succeeds exactly on
    the valid areas (four coordinates in [0, 1000], x1 <= x2, y1 <= y2).
    On any other input it fails with an error caught as a ValueError; when
    the four coordinates have at most 4300 digits that error is a
    CoordinateError whose message starts with the function's own label,
    "normalized_area_to_center: ". *)
Theorem normalized_area_to_center_spec screen_size x1 y1 x2 y2 :
  0 < width screen_size -> 0 < height screen_size ->
  NORMALIZED_RANGE * width screen_size < 2 ^ 53 ->
  NORMALIZED_RANGE * height screen_size < 2 ^ 53 ->
  (is_ok (normalized_area_to_center x1 y1 x2 y2 screen_size) = true <->
     (0 <= x1 <= NORMALIZED_RANGE /\ 0 <= y1 <= NORMALIZED_RANGE) /\
     (0 <= x2 <= NORMALIZED_RANGE /\ 0 <= y2 <= NORMALIZED_RANGE) /\
     x1 <= x2 /\ y1 <= y2) /\
  (forall e,
     normalized_area_to_center x1 y1 x2 y2 screen_size = Err e ->
     isinstance e ValueError = true /\
     (Z.abs x1 < PyStr.str_limit -> Z.abs y1 < PyStr.str_limit ->
      Z.abs x2 < PyStr.str_limit -> Z.abs y2 < PyStr.str_limit ->
      exn_type e = CoordinateError /\
      exists rest,
        exn_msg e = "normalized_area_to_center: " +:+ rest)).
Proof.
  intros HW0 HH0 HW HH. unfold normalized_area_to_center.
  destruct (validate_normalized_area x1 y1 x2 y2 _) as [[]|e0] eqn:Hv.
  - apply validate_normalized_area_ok_inv in Hv as Hok.
    destruct Hok as ([Hx1 Hy1] & [Hx2 Hy2] & Hx & Hy).
    change (Ok tt ≫= _) with
      (normalized_to_absolute ((x1 + x2) / 2) ((y1 + y2) / 2) screen_size).
    destruct (midpoint_between x1 x2 Hx) as [Hmx1 Hmx2].
    destruct (midpoint_between y1 y2 Hy) as [Hmy1 Hmy2].
    rewrite normalized_to_absolute_floor by (assumption || lia).
    split; [split; [intros _; lia | reflexivity] | discriminate].
  - change (Err e0 ≫= _) with (@Err (Z * Z) e0).
    split.
    + split; [discriminate|].
      intros ([Hx1 Hy1] & [Hx2 Hy2] & Hx & Hy).
      rewrite validate_normalized_area_ok in Hv by assumption. discriminate.
    + intros e [= <-]. split.
      * eapply validate_normalized_area_raises_ValueError; exact Hv.
      * intros L1 L2 L3 L4. split.
        -- exact (validate_normalized_area_raises _ _ _ _ _ _ L1 L2 L3 L4 Hv).
        -- exact (validate_normalized_area_labelled _ _ _ _ _ L1 L2 L3 L4 Hv).
Qed.

Lemma normalized_area_to_center_spec_witness :
  is_ok (normalized_area_to_center 100 200 300 400 (mkScreenSize 1080 2400))
    = true.
Proof.
  refine (proj2 (proj1 (normalized_area_to_center_spec
                          (mkScreenSize 1080 2400) 100 200 300 400
                          _ _ _ _)) _);
    cbn [width height]; unfold NORMALIZED_RANGE; try lia; reflexivity.
Defined.

(** ** Bounds strings, end to end *)

Section Bounds.

Lemma absolute_to_normalized_ok_range abs_x abs_y screen_size norm_x norm_y :
  absolute_to_normalized abs_x abs_y screen_size = Ok (norm_x, norm_y) ->
  0 <= norm_x <= NORMALIZED_RANGE /\ 0 <= norm_y <= NORMALIZED_RANGE.
Proof.
  unfold absolute_to_normalized.
  destruct (int_truediv _ (width screen_size)) as [vx|]; [|discriminate].
  destruct (int_truediv _ (height screen_size)) as [vy|]; [|discriminate].
  intros [= <- <-]. unfold NORMALIZED_RANGE. lia.
Qed.

(** Parsing done: what is left of bounds_to_normalized on four padded
    integer tokens is the conversion of the two corners. *)
Lemma bounds_to_normalized_tokens t1 t2 t3 t4 p1 p2 p3 p4 screen_size :
  int_token t1 = true -> int_token t2 = true ->
  int_token t3 = true -> int_token t4 = true ->
  padding t1 p1 -> padding t2 p2 -> padding t3 p3 -> padding t4 p4 ->
  (token_digits t1 <= PyStr.int_max_str_digits)%nat ->
  (token_digits t2 <= PyStr.int_max_str_digits)%nat ->
  (token_digits t3 <= PyStr.int_max_str_digits)%nat ->
  (token_digits t4 <= PyStr.int_max_str_digits)%nat ->
  bounds_to_normalized (PyStr.join "," [p1; p2; p3; p4]) screen_size =
    ('(norm_x1, norm_y1) ←
       absolute_to_normalized (token_value t1) (token_value t2) screen_size;
     '(norm_x2, norm_y2) ←
       absolute_to_normalized (token_value t3) (token_value t4) screen_size;
     Ok (norm_x1, norm_y1, norm_x2, norm_y2)).
Proof.
  intros T1 T2 T3 T4 P1 P2 P3 P4 L1 L2 L3 L4.
  unfold bounds_to_normalized.
  rewrite split_join
    by (try discriminate; repeat constructor; eauto using padding_no_comma).
  cbn [map].
  rewrite (int_padding t1 p1), (int_padding t2 p2),
    (int_padding t3 p3), (int_padding t4 p4) by assumption.
  rewrite !int_token_alone by assumption.
  apply Nat.ltb_ge in L1, L2, L3, L4. rewrite L1, L2, L3, L4.
  reflexivity.
Qed.

End Bounds.

(** X13.  Whatever the bounds string and the screen, a result returned by
    bounds_to_normalized has all four components in [0, 1000]: the function
    never hands out a coordinate outside the normalized range. *)
Theorem bounds_to_normalized_in_range
    bounds_str screen_size norm_x1 norm_y1 norm_x2 norm_y2 :
  bounds_to_normalized bounds_str screen_size =
    Ok (norm_x1, norm_y1, norm_x2, norm_y2) ->
  (0 <= norm_x1 <= NORMALIZED_RANGE /\ 0 <= norm_y1 <= NORMALIZED_RANGE) /\
  (0 <= norm_x2 <= NORMALIZED_RANGE /\ 0 <= norm_y2 <= NORMALIZED_RANGE).
Proof.
  unfold bounds_to_normalized.
  destruct (PyStr.unpack4 _) as [[[[l t] r] b]|]; [|discriminate].
  cbn.
  destruct (absolute_to_normalized l t screen_size) as [[a1 b1]|] eqn:H1;
    [|discriminate].
  cbn.
  destruct (absolute_to_normalized r b screen_size) as [[a2 b2]|] eqn:H2;
    [|discriminate].
  cbn. intros [= <- <- <- <-].
  split; eapply absolute_to_normalized_ok_range; eassumption.
Qed.

Lemma bounds_to_normalized_in_range_witness :
  bounds_to_normalized "-20,100,5000,1200" (mkScreenSize 1080 2400)
    = Ok (0, 41, 1000, 500) /\
  (0 <= 0 <= NORMALIZED_RANGE /\ 0 <= 41 <= NORMALIZED_RANGE) /\
  (0 <= 1000 <= NORMALIZED_RANGE /\ 0 <= 500 <= NORMALIZED_RANGE).
Proof.
  split; [reflexivity|].
  apply (bounds_to_normalized_in_range
           "-20,100,5000,1200" (mkScreenSize 1080 2400) 0 41 1000 500).
  reflexivity.
Defined.

(** X14.  Ordered pixel bounds give a valid normalized area.  On a screen
    with positive dimensions below [2^53], a bounds string of four white
    space padded integer tokens (each within the digit limit of int())
    whose values satisfy left <= right and top <= bottom, with products
    with 1000 below [2^53] in magnitude, makes bounds_to_normalized succeed
    with (x1, y1, x2, y2) such that x1 <= x2 and y1 <= y2, and
    validate_normalized_area accepts that result under any label. *)
Theorem bounds_to_normalized_valid_area
    t1 t2 t3 t4 p1 p2 p3 p4 screen_size context :
  int_token t1 = true -> int_token t2 = true ->
  int_token t3 = true -> int_token t4 = true ->
  padding t1 p1 -> padding t2 p2 -> padding t3 p3 -> padding t4 p4 ->
  (token_digits t1 <= PyStr.int_max_str_digits)%nat ->
  (token_digits t2 <= PyStr.int_max_str_digits)%nat ->
  (token_digits t3 <= PyStr.int_max_str_digits)%nat ->
  (token_digits t4 <= PyStr.int_max_str_digits)%nat ->
  0 < width screen_size < 2 ^ 53 -> 0 < height screen_size < 2 ^ 53 ->
  Z.abs (token_value t1 * NORMALIZED_RANGE) < 2 ^ 53 ->
  Z.abs (token_value t2 * NORMALIZED_RANGE) < 2 ^ 53 ->
  Z.abs (token_value t3 * NORMALIZED_RANGE) < 2 ^ 53 ->
  Z.abs (token_value t4 * NORMALIZED_RANGE) < 2 ^ 53 ->
  token_value t1 <= token_value t3 -> token_value t2 <= token_value t4 ->
  exists x1 y1 x2 y2,
    bounds_to_normalized (PyStr.join "," [p1; p2; p3; p4]) screen_size
      = Ok (x1, y1, x2, y2) /\
    x1 <= x2 /\ y1 <= y2 /\
    validate_normalized_area x1 y1 x2 y2 context = Ok tt.
Proof.
  intros T1 T2 T3 T4 P1 P2 P3 P4 L1 L2 L3 L4 [HW0 HW] [HH0 HH]
    B1 B2 B3 B4 Hlr Htb.
  rewrite (bounds_to_normalized_tokens t1 t2 t3 t4) by assumption.
  rewrite !absolute_to_normalized_quot by assumption.
  pose proof (clamp_quot_mono _ _ (width screen_size) HW0 Hlr) as Mx.
  pose proof (clamp_quot_mono _ _ (height screen_size) HH0 Htb) as My.
  destruct (clamp_quot_cases (token_value t1) (width screen_size) HW0)
    as (R1 & _).
  destruct (clamp_quot_cases (token_value t2) (height screen_size) HH0)
    as (R2 & _).
  destruct (clamp_quot_cases (token_value t3) (width screen_size) HW0)
    as (R3 & _).
  destruct (clamp_quot_cases (token_value t4) (height screen_size) HH0)
    as (R4 & _).
  cbv zeta in *.
  do 4 eexists. split; [reflexivity|].
  split; [exact Mx|]. split; [exact My|].
  now apply validate_normalized_area_ok.
Qed.

Lemma bounds_to_normalized_valid_area_witness :
  exists x1 y1 x2 y2,
    bounds_to_normalized " 108, 240 ,540,1200" (mkScreenSize 1080 2400)
      = Ok (x1, y1, x2, y2) /\
    x1 <= x2 /\ y1 <= y2 /\
    validate_normalized_area x1 y1 x2 y2 "tap" = Ok tt.
Proof.
  refine (bounds_to_normalized_valid_area
            "108" "240" "540" "1200" " 108" " 240 " "540" "1200"
            (mkScreenSize 1080 2400) "tap"
            eq_refl eq_refl eq_refl eq_refl _ _ _ _ _ _ _ _ _ _ _ _ _ _ _ _);
    try (vm_compute; (reflexivity || discriminate || lia));
    try (cbn [width height]; split; reflexivity).
  - exact (padding_intro "108" " " EmptyString eq_refl eq_refl).
  - exact (padding_intro "240" " " " " eq_refl eq_refl).
  - exact (padding_intro "540" EmptyString EmptyString eq_refl eq_refl).
  - exact (padding_intro "1200" EmptyString EmptyString eq_refl eq_refl).
Defined.

(** X15.  From an element's pixel bounds to its tap point.  On a screen
    with positive dimensions whose products with 1000 stay below [2^53],
    for a bounds string of four padded integer tokens lying on the screen
    (0 <= left <= right <= width, 0 <= top <= bottom <= height),
    bounds_to_normalized followed by normalized_area_to_center succeeds,
    and the centre it returns is never right of (below) the element and is
    left of (above) it by less than one normalized cell plus one pixel:
    center_x <= right and (left - center_x) * 1000 < width + 1000. *)
Theorem bounds_center_near_element t1 t2 t3 t4 p1 p2 p3 p4 screen_size :
  int_token t1 = true -> int_token t2 = true ->
  int_token t3 = true -> int_token t4 = true ->
  padding t1 p1 -> padding t2 p2 -> padding t3 p3 -> padding t4 p4 ->
  (token_digits t1 <= PyStr.int_max_str_digits)%nat ->
  (token_digits t2 <= PyStr.int_max_str_digits)%nat ->
  (token_digits t3 <= PyStr.int_max_str_digits)%nat ->
  (token_digits t4 <= PyStr.int_max_str_digits)%nat ->
  NORMALIZED_RANGE * width screen_size < 2 ^ 53 ->
  NORMALIZED_RANGE * height screen_size < 2 ^ 53 ->
  0 <= token_value t1 -> token_value t1 <= token_value t3 ->
  token_value t3 <= width screen_size ->
  0 <= token_value t2 -> token_value t2 <= token_value t4 ->
  token_value t4 <= height screen_size ->
  0 < width screen_size -> 0 < height screen_size ->
  exists x1 y1 x2 y2 center_x center_y,
    bounds_to_normalized (PyStr.join "," [p1; p2; p3; p4]) screen_size
      = Ok (x1, y1, x2, y2) /\
    normalized_area_to_center x1 y1 x2 y2 screen_size
      = Ok (center_x, center_y) /\
    0 <= center_x <= token_value t3 /\
    (token_value t1 - center_x) * NORMALIZED_RANGE
      < width screen_size + NORMALIZED_RANGE /\
    0 <= center_y <= token_value t4 /\
    (token_value t2 - center_y) * NORMALIZED_RANGE
      < height screen_size + NORMALIZED_RANGE.
Proof.
  intros T1 T2 T3 T4 P1 P2 P3 P4 L1 L2 L3 L4 HW HH
    Hl0 Hlr HrW Ht0 Htb HbH HW0 HH0.
  rewrite (bounds_to_normalized_tokens t1 t2 t3 t4) by assumption.
  set (l := token_value t1) in *. set (t := token_value t2) in *.
  set (r := token_value t3) in *. set (b := token_value t4) in *.
  assert (H53 : 2 ^ 53 = 9007199254740992) by reflexivity.
  rewrite !absolute_to_normalized_quot
    by (assumption || unfold NORMALIZED_RANGE in *; lia).
  destruct (clamp_quot_cases l (width screen_size) HW0) as (_ & _ & _ & Cl).
  destruct (clamp_quot_cases t (height screen_size) HH0) as (_ & _ & _ & Ct).
  destruct (clamp_quot_cases r (width screen_size) HW0) as (_ & _ & _ & Cr).
  destruct (clamp_quot_cases b (height screen_size) HH0) as (_ & _ & _ & Cb).
  cbv zeta in *.
  rewrite (Cl ltac:(lia)), (Ct ltac:(lia)), (Cr ltac:(lia)), (Cb ltac:(lia)).
  clear Cl Ct Cr Cb.
  unfold NORMALIZED_RANGE in *.
  set (W := width screen_size) in *. set (H := height screen_size) in *.
  pose proof (Z.div_mod (l * 1000) W ltac:(lia)) as Dl.
  pose proof (Z.mod_pos_bound (l * 1000) W HW0) as Rl.
  pose proof (Z.div_mod (r * 1000) W ltac:(lia)) as Dr.
  pose proof (Z.mod_pos_bound (r * 1000) W HW0) as Rr.
  pose proof (Z.div_mod (t * 1000) H ltac:(lia)) as Dt.
  pose proof (Z.mod_pos_bound (t * 1000) H HH0) as Rt.
  pose proof (Z.div_mod (b * 1000) H ltac:(lia)) as Db.
  pose proof (Z.mod_pos_bound (b * 1000) H HH0) as Rb.
  set (x1 := l * 1000 / W) in *. set (x2 := r * 1000 / W) in *.
  set (y1 := t * 1000 / H) in *. set (y2 := b * 1000 / H) in *.
  assert (Hx1 : 0 <= x1) by (apply Z.div_pos; lia).
  assert (Hy1 : 0 <= y1) by (apply Z.div_pos; lia).
  assert (Hx12 : x1 <= x2) by (apply Z.div_le_mono; lia).
  assert (Hy12 : y1 <= y2) by (apply Z.div_le_mono; lia).
  assert (Hx2 : x2 <= 1000) by (apply Z.div_le_upper_bound; lia).
  assert (Hy2 : y2 <= 1000) by (apply Z.div_le_upper_bound; lia).
  exists x1, y1, x2, y2.
  unfold normalized_area_to_center.
  rewrite validate_normalized_area_ok by (unfold NORMALIZED_RANGE; lia).
  destruct (midpoint_between x1 x2 Hx12) as [Mx1 Mx2].
  destruct (midpoint_between y1 y2 Hy12) as [My1 My2].
  set (mx := (x1 + x2) / 2) in *. set (my := (y1 + y2) / 2) in *.
  do 2 eexists. split; [reflexivity|].
  split.
  { change (Ok tt ≫= _) with (normalized_to_absolute mx my screen_size).
    apply normalized_to_absolute_floor;
      fold W; fold H; unfold NORMALIZED_RANGE; lia. }
  fold W. fold H. unfold NORMALIZED_RANGE.
  pose proof (Z.div_mod (mx * W) 1000 ltac:(lia)) as Dcx.
  pose proof (Z.mod_pos_bound (mx * W) 1000 ltac:(lia)) as Rcx.
  pose proof (Z.div_mod (my * H) 1000 ltac:(lia)) as Dcy.
  pose proof (Z.mod_pos_bound (my * H) 1000 ltac:(lia)) as Rcy.
  assert (x1 * W <= mx * W <= x2 * W) by nia.
  assert (y1 * H <= my * H <= y2 * H) by nia.
  assert (0 <= mx * W / 1000) by (apply Z.div_pos; nia).
  assert (0 <= my * H / 1000) by (apply Z.div_pos; nia).
  repeat split; lia.
Qed.

Lemma bounds_center_near_element_witness :
  exists x1 y1 x2 y2 center_x center_y,
    bounds_to_normalized "101,203, 305 ,407" (mkScreenSize 1080 2400)
      = Ok (x1, y1, x2, y2) /\
    normalized_area_to_center x1 y1 x2 y2 (mkScreenSize 1080 2400)
      = Ok (center_x, center_y) /\
    0 <= center_x <= 305 /\
    (101 - center_x) * NORMALIZED_RANGE < 1080 + NORMALIZED_RANGE /\
    0 <= center_y <= 407 /\
    (203 - center_y) * NORMALIZED_RANGE < 2400 + NORMALIZED_RANGE.
Proof.
  refine (bounds_center_near_element
            "101" "203" "305" "407" "101" "203" " 305 " "407"
            (mkScreenSize 1080 2400)
            eq_refl eq_refl eq_refl eq_refl _ _ _ _
            _ _ _ _ _ _ _ _ _ _ _ _ _ _);
    try (vm_compute; (reflexivity || discriminate || lia)).
  - exact (padding_intro "101" EmptyString EmptyString eq_refl eq_refl).
  - exact (padding_intro "203" EmptyString EmptyString eq_refl eq_refl).
  - exact (padding_intro "305" " " " " eq_refl eq_refl).
  - exact (padding_intro "407" EmptyString EmptyString eq_refl eq_refl).
Defined.

(** ** Which errors can surface *)

Section Failures.

(** With a non-zero divisor [int(a / b)] can only fail by overflow, and only
    for a dividend of magnitude [2^1023] or more. *)
Lemma int_truediv_error a b e :
  b <> 0 -> int_truediv a b = Err e ->
  exn_type e = OverflowError /\ 2 ^ 1023 <= Z.abs a.
Proof.
  intros Hb Herr. split.
  - unfold int_truediv, truediv, raise in Herr.
    destruct (Z.eqb_spec b 0); [contradiction|].
    destruct (a =? 0); [discriminate|].
    destruct (_ && _); [now injection Herr as <-|discriminate].
  - destruct (Z.le_gt_cases (2 ^ 1023) (Z.abs a)) as [|Hlt]; [assumption|].
    destruct (int_truediv_no_overflow a b Hlt Hb) as [v Hv].
    rewrite Hv in Herr. discriminate.
Qed.

Lemma absolute_to_normalized_error abs_x abs_y screen_size e :
  0 < width screen_size -> 0 < height screen_size ->
  absolute_to_normalized abs_x abs_y screen_size = Err e ->
  exn_type e = OverflowError /\
  (2 ^ 1023 <= Z.abs (abs_x * NORMALIZED_RANGE) \/
   2 ^ 1023 <= Z.abs (abs_y * NORMALIZED_RANGE)).
Proof.
  intros HW HH. unfold absolute_to_normalized.
  destruct (int_truediv _ (width screen_size)) as [vx|ex] eqn:Hx.
  - destruct (int_truediv _ (height screen_size)) as [vy|ey] eqn:Hy;
      [discriminate|].
    intros [= <-]. apply int_truediv_error in Hy as [Ht Hbig]; [|lia].
    split; [exact Ht | right; exact Hbig].
  - intros [= <-]. apply int_truediv_error in Hx as [Ht Hbig]; [|lia].
    split; [exact Ht | left; exact Hbig].
Qed.

End Failures.

(** X16.  normalized_to_absolute validates before it divides.  On every
    screen, also where the division itself would overflow, an out-of-range
    coordinate makes it fail with an error caught as a ValueError: the
    CoordinateError whose message starts with "normalized_to_absolute: "
    when the coordinates have at most 4300 digits.  For in-range
    coordinates the only possible failure is the OverflowError of the
    float division, which needs a dimension of magnitude [2^1023 / 1000]
    or more. *)
Theorem normalized_to_absolute_failures norm_x norm_y screen_size :
  (~ (0 <= norm_x <= NORMALIZED_RANGE /\ 0 <= norm_y <= NORMALIZED_RANGE) ->
   exists e,
     normalized_to_absolute norm_x norm_y screen_size = Err e /\
     isinstance e ValueError = true /\
     (Z.abs norm_x < PyStr.str_limit -> Z.abs norm_y < PyStr.str_limit ->
      exn_type e = CoordinateError /\
      exists rest, exn_msg e = "normalized_to_absolute: " +:+ rest)) /\
  (0 <= norm_x <= NORMALIZED_RANGE -> 0 <= norm_y <= NORMALIZED_RANGE ->
   forall e,
     normalized_to_absolute norm_x norm_y screen_size = Err e ->
     exn_type e = OverflowError /\
     (2 ^ 1023 <= NORMALIZED_RANGE * Z.abs (width screen_size) \/
      2 ^ 1023 <= NORMALIZED_RANGE * Z.abs (height screen_size))).
Proof.
  split.
  - intros Hbad. unfold normalized_to_absolute.
    destruct (validate_normalized_coords_refuses norm_x norm_y
                "normalized_to_absolute" Hbad) as (e & He & Hinst).
    rewrite He. exists e. split; [reflexivity|]. split; [exact Hinst|].
    intros Lx Ly.
    destruct (validate_normalized_coords_fails norm_x norm_y
                "normalized_to_absolute" Hbad Lx Ly)
      as (e' & He' & Ht & rest & Hm).
    rewrite He in He'. injection He' as <-.
    split; [exact Ht|]. exists rest. exact Hm.
  - intros Hx Hy e. unfold normalized_to_absolute.
    rewrite validate_normalized_coords_ok by assumption.
    change (Ok tt ≫= ?k) with (k tt). cbv beta.
    unfold NORMALIZED_RANGE in *.
    destruct (int_truediv (norm_x * width screen_size) 1000)
      as [vx|ex] eqn:Dx.
    + destruct (int_truediv (norm_y * height screen_size) 1000)
        as [vy|ey] eqn:Dy; [discriminate|].
      intros [= <-]. apply int_truediv_error in Dy as [Ht Hbig]; [|lia].
      split; [exact Ht|right]. nia.
    + intros [= <-]. apply int_truediv_error in Dx as [Ht Hbig]; [|lia].
      split; [exact Ht|left]. nia.
Qed.

Lemma normalized_to_absolute_failures_witness :
  exists e,
    normalized_to_absolute (-1) 500 (mkScreenSize (2 ^ 1024) 1) = Err e /\
    isinstance e ValueError = true /\
    (Z.abs (-1) < PyStr.str_limit -> Z.abs 500 < PyStr.str_limit ->
     exn_type e = CoordinateError /\
     exists rest, exn_msg e = "normalized_to_absolute: " +:+ rest).
Proof.
  apply (proj1 (normalized_to_absolute_failures
                  (-1) 500 (mkScreenSize (2 ^ 1024) 1))).
  unfold NORMALIZED_RANGE. lia.
Defined.

(** X17.  absolute_to_normalized validates nothing: on a screen with
    positive width and height it never raises a CoordinateError, and its
    only possible failure is the OverflowError of the float division, for
    a pixel value whose product with 1000 reaches [2^1023] in magnitude. *)
Theorem absolute_to_normalized_failures abs_x abs_y screen_size e :
  0 < width screen_size -> 0 < height screen_size ->
  absolute_to_normalized abs_x abs_y screen_size = Err e ->
  exn_type e = OverflowError /\
  isinstance e CoordinateError = false /\
  isinstance e ValueError = false /\
  (2 ^ 1023 <= Z.abs (abs_x * NORMALIZED_RANGE) \/
   2 ^ 1023 <= Z.abs (abs_y * NORMALIZED_RANGE)).
Proof.
  intros HW HH Herr.
  destruct (absolute_to_normalized_error _ _ _ _ HW HH Herr) as [Ht Hbig].
  unfold isinstance. rewrite Ht. repeat split; assumption.
Qed.

Lemma absolute_to_normalized_failures_witness :
  exn_type (Raise OverflowError "integer division result too large for a float")
    = OverflowError /\
  isinstance (Raise OverflowError "integer division result too large for a float")
    CoordinateError = false /\
  isinstance (Raise OverflowError "integer division result too large for a float")
    ValueError = false /\
  (2 ^ 1023 <= Z.abs (0 * NORMALIZED_RANGE) \/
   2 ^ 1023 <= Z.abs (- 2 ^ 1030 * NORMALIZED_RANGE)).
Proof.
  apply (absolute_to_normalized_failures 0 (- 2 ^ 1030)
           (mkScreenSize 1080 2400)); try (cbn [width height]; lia).
  vm_compute. reflexivity.
Defined.

(** X18.  bounds_to_normalized on a screen with positive width and height
    never raises a CoordinateError: every failure is either the built-in
    ValueError of the parse or of the unpacking, or the OverflowError of
    the float division. *)
Theorem bounds_to_normalized_failures bounds_str screen_size e :
  0 < width screen_size -> 0 < height screen_size ->
  bounds_to_normalized bounds_str screen_size = Err e ->
  (exn_type e = ValueError \/ exn_type e = OverflowError) /\
  exn_type e <> CoordinateError.
Proof.
  intros HW HH. unfold bounds_to_normalized.
  assert (Hcases : exn_type e = ValueError \/ exn_type e = OverflowError ->
                   (exn_type e = ValueError \/ exn_type e = OverflowError) /\
                   exn_type e <> CoordinateError)
    by (intros [Ht|Ht]; rewrite Ht; split; auto; discriminate).
  destruct (PyStr.unpack4 _) as [[[[l t] r] b]|e0] eqn:Hun.
  - cbn.
    destruct (absolute_to_normalized l t screen_size) as [[a1 b1]|e1] eqn:H1.
    + cbn.
      destruct (absolute_to_normalized r b screen_size) as [[a2 b2]|e2] eqn:H2;
        [discriminate|].
      intros [= <-]. apply Hcases. right.
      eapply absolute_to_normalized_error; eassumption.
    + intros [= <-]. apply Hcases. right.
      eapply absolute_to_normalized_error; eassumption.
  - intros [= <-]. apply Hcases. left.
    eapply unpack4_raises_ValueError; [|exact Hun].
    apply Forall_forall. intros x Hin%list_elem_of_In e' ->.
    apply in_map_iff in Hin as (tok & Htok & _).
    eapply int_raises_ValueError; eassumption.
Qed.

Lemma bounds_to_normalized_failures_witness :
  (exn_type (Raise ValueError "too many values to unpack (expected 4)")
     = ValueError \/
   exn_type (Raise ValueError "too many values to unpack (expected 4)")
     = OverflowError) /\
  exn_type (Raise ValueError "too many values to unpack (expected 4)")
    <> CoordinateError.
Proof.
  apply (bounds_to_normalized_failures "1,2,3,4,5" (mkScreenSize 1080 2400));
    try (cbn [width height]; lia).
  reflexivity.
Defined.
